(** * langchain-tgi: the Llama-2 prompt formatters and the TGI chat adapter

  A shallow embedding of
    - [langchain/chat_models/hf_llama2.py]
        ([HFLlamaFormatter], [ClientKwargs], [HFChatTGI]) and
    - [langchain/chat_models/hugginface_text_gen_inference.py]
        ([Llama2Chat]),
  followed by the properties of the prompt format, of the client
  resolution and of the three generation entry points.

  Python exceptions are values of [Exception]; a call either returns
  ([Ok]) or raises ([Raise]).  Code that reads the process environment,
  writes to the logger or talks to the inference service runs in the
  state-and-exception monad [M World]; the formatters are written in the
  same monad, over an arbitrary state. *)

From Stdlib Require Import String Ascii List ZArith Lia.
From stdpp Require Import base option gmap strings list.

Open Scope string_scope.

(** ** Python values, exceptions and effects *)

Module Py.

Inductive Exception : Type :=
| ValueError (msg : string)
| AttributeError (msg : string)
| TypeError (msg : string)
| StopIteration
| OtherError (name msg : string).

Inductive Result (A : Type) : Type :=
| Ok (a : A)
| Raise (e : Exception).
Arguments Ok {A} a.
Arguments Raise {A} e.

(** A computation over a state [S]: the state it leaves behind is kept
    also when it raises, as the effects done before a Python exception
    are. *)
Definition M (S A : Type) : Type := S -> Result A * S.

Definition ret {S A} (a : A) : M S A := fun s => (Ok a, s).

Definition raise {S A} (e : Exception) : M S A := fun s => (Raise e, s).

Definition bind {S A B} (m : M S A) (k : A -> M S B) : M S B :=
  fun s =>
    match m s with
    | (Ok a, s') => k a s'
    | (Raise e, s') => (Raise e, s')
    end.

Definition lift {S A} (r : Result A) : M S A := fun s => (r, s).

Definition gets {S A} (f : S -> A) : M S A := fun s => (Ok (f s), s).

Definition modify {S} (f : S -> S) : M S unit := fun s => (Ok tt, f s).

(** [[f(x) for x in xs]]: the elements are visited from left to right and
    the first exception ends the comprehension. *)
Fixpoint list_comprehension {S A B} (f : A -> M S B) (xs : list A)
  : M S (list B) :=
  match xs with
  | [] => ret []
  | x :: xs' =>
      bind (f x) (fun y =>
      bind (list_comprehension f xs') (fun ys =>
      ret (y :: ys)))
  end.

(** [sep.join(parts)]. *)
Definition join (sep : string) (parts : list string) : string :=
  String.concat sep parts.

(** The character [\n]. *)
Definition nl : string := String "010"%char EmptyString.

End Py.

Export Py.

Declare Scope py_scope.
Delimit Scope py_scope with py.
Notation "x <- c ;; k" := (bind c (fun x => k))
  (at level 100, c at next level, right associativity) : py_scope.
Notation "c ;;; k" := (bind c (fun _ => k))
  (at level 100, right associativity) : py_scope.
Open Scope py_scope.

(** ** [langchain.schema.messages]

  The message classes the formatters test with [isinstance].  A message
  carries its class and its text. *)

Module messages.

Inductive MessageClass : Type :=
| HumanMessage
| AIMessage
| SystemMessage
| ChatMessage
| FunctionMessage.

#[global] Instance MessageClass_eq_dec : EqDecision MessageClass.
Proof. solve_decision. Defined.

Record BaseMessage : Type := Message {
  type : MessageClass;
  content : string
}.

Definition isinstance (message : BaseMessage) (c : MessageClass) : bool :=
  bool_decide (type message = c).

Definition class_name (c : MessageClass) : string :=
  match c with
  | HumanMessage => "HumanMessage"
  | AIMessage => "AIMessage"
  | SystemMessage => "SystemMessage"
  | ChatMessage => "ChatMessage"
  | FunctionMessage => "FunctionMessage"
  end.

(** [str(cls)] of a message class. *)
Definition class_repr (c : MessageClass) : string :=
  "<class 'langchain.schema.messages." +:+ class_name c +:+ "'>".

(** [str([SystemMessage, HumanMessage, AIMessage])]. *)
Definition supported_repr : string :=
  "[" +:+ class_repr SystemMessage +:+ ", " +:+ class_repr HumanMessage
      +:+ ", " +:+ class_repr AIMessage +:+ "]".

(** The text of the [ValueError] both formatters raise. *)
Definition unsupported_message (message : BaseMessage) : string :=
  "Received unsupported message type: " +:+ class_repr (type message)
    +:+ "." +:+ nl
    +:+ " Supported message types for the LLaMa-2 Foundation Model:"
    +:+ " " +:+ supported_repr.

End messages.

Export messages.

(** ** [hf_llama2.HFLlamaFormatter] *)

Module HFLlamaFormatter.

(** The class attributes a classmethod reads through [cls]. *)
Record cls_attrs : Type := Cls {
  B_INST : string;
  E_INST : string;
  B_SYS : string;
  E_SYS : string;
  HF_BOS_TOKEN : string;
  HF_EOS_TOKEN : string
}.

Definition cls : cls_attrs := {|
  B_INST := "[INST]";
  E_INST := "[/INST]";
  B_SYS := "<<SYS>>" +:+ nl;
  E_SYS := nl +:+ "<</SYS>>" +:+ nl +:+ nl;
  HF_BOS_TOKEN := "<s>";
  HF_EOS_TOKEN := "</s>"
|}.

Definition message2string {S} (cls : cls_attrs) (message : BaseMessage)
  : M S string :=
  if isinstance message HumanMessage then
    ret (HF_BOS_TOKEN cls +:+ B_INST cls +:+ content message +:+ E_INST cls)
  else if isinstance message AIMessage then
    ret (content message +:+ HF_EOS_TOKEN cls)
  else if isinstance message SystemMessage then
    ret (HF_BOS_TOKEN cls +:+ B_SYS cls +:+ content message +:+ E_SYS cls
           +:+ HF_EOS_TOKEN cls)
  else
    raise (ValueError (unsupported_message message)).

Definition dialog2string {S} (cls : cls_attrs) (dialog : list BaseMessage)
    (join_char : string) : M S string :=
  parts <- list_comprehension (message2string cls) dialog ;;
  let string := join join_char parts in
  ret string.

(** The default of the [join_char] parameter. *)
Definition join_char_default : string := nl.

End HFLlamaFormatter.

(** ** [hugginface_text_gen_inference.Llama2Chat] *)

Module Llama2Chat.

(** The fields the class declares, with the names it declares them under:
    the beginning-of-sequence token is declared as [HF_BOS_TOKE]. *)
Record instance : Type := Instance_ {
  B_INST : string;
  E_INST : string;
  B_SYS : string;
  E_SYS : string;
  HF_BOS_TOKE : string;
  HF_EOS_TOKEN : string;
  join_char : string
}.

(** An instance built with the declared defaults. *)
Definition default : instance := {|
  B_INST := "[INST]";
  E_INST := "[/INST]";
  B_SYS := "<<SYS>>" +:+ nl;
  E_SYS := nl +:+ "<</SYS>>" +:+ nl +:+ nl;
  HF_BOS_TOKE := "<s>";
  HF_EOS_TOKEN := "</s>";
  join_char := nl
|}.

(** The string attributes of an instance, by name. *)
Definition attributes (self : instance) : gmap string string :=
  list_to_map [
    ("B_INST", B_INST self);
    ("E_INST", E_INST self);
    ("B_SYS", B_SYS self);
    ("E_SYS", E_SYS self);
    ("HF_BOS_TOKE", HF_BOS_TOKE self);
    ("HF_EOS_TOKEN", HF_EOS_TOKEN self);
    ("join_char", join_char self)
  ].

(** [self.name]: an attribute the instance does not have raises. *)
Definition getattr {S} (self : instance) (name : string) : M S string :=
  match attributes self !! name with
  | Some v => ret v
  | None =>
      raise (AttributeError
               ("'Llama2Chat' object has no attribute '" +:+ name +:+ "'"))
  end.

(** The parts of an f-string are evaluated from left to right. *)
Definition message2string {S} (self : instance) (message : BaseMessage)
  : M S string :=
  if isinstance message HumanMessage then
    bos <- getattr self "HF_BOS_TOKEN" ;;
    b_inst <- getattr self "B_INST" ;;
    e_inst <- getattr self "E_INST" ;;
    ret (bos +:+ b_inst +:+ content message +:+ e_inst)
  else if isinstance message AIMessage then
    eos <- getattr self "HF_EOS_TOKEN" ;;
    ret (content message +:+ eos)
  else if isinstance message SystemMessage then
    bos <- getattr self "HF_BOS_TOKEN" ;;
    b_sys <- getattr self "B_SYS" ;;
    e_sys <- getattr self "E_SYS" ;;
    eos <- getattr self "HF_EOS_TOKEN" ;;
    ret (bos +:+ b_sys +:+ content message +:+ e_sys +:+ eos)
  else
    raise (ValueError (unsupported_message message)).

Definition _preprocess {S} (self : instance) (messages : list BaseMessage)
  : M S string :=
  sep <- getattr self "join_char" ;;
  parts <- list_comprehension (message2string self) messages ;;
  ret (join sep parts).

End Llama2Chat.

(** ** The [text_generation] client, as the adapter uses it *)

Module text_generation.

Record AsyncClient : Type := {
  base_url : string;
  headers : option (gmap string string);
  cookies : option (gmap string string);
  timeout : Z
}.

(** [AsyncClient(url)]: the other parameters keep their defaults. *)
Definition AsyncClient_of_url (url : string) : AsyncClient :=
  {| base_url := url; headers := None; cookies := None; timeout := 10 |}.

Record Response (Details : Type) : Type := {
  generated_text : string;
  details : Details
}.
Arguments generated_text {Details} _.
Arguments details {Details} _.

(** What a streaming call delivers: text fragments, then the completion
    signal or a failure. *)
Inductive Stream : Type :=
| Completed
| Fragment (text : string) (rest : Stream)
| Failed (e : Exception).

Fixpoint Stream_of_list (fragments : list string) : Stream :=
  match fragments with
  | [] => Completed
  | text :: rest => Fragment text (Stream_of_list rest)
  end.

(** The inference service behind the client: the types of the free-form
    values ([Any]) and of the generation details, the [.dict()] of the
    details, and what the service answers to a request. *)
Class Service : Type := {
  Value : Type;
  Details : Type;
  Details_dict : Details -> gmap string Value;
  reply : AsyncClient -> string -> gmap string Value
          -> Result (Response Details);
  stream_reply : AsyncClient -> string -> gmap string Value -> Result Stream
}.

Inductive Endpoint : Type := Generate | GenerateStream.

Record Request `{Service} : Type := {
  req_client : AsyncClient;
  req_endpoint : Endpoint;
  req_prompt : string;
  req_kwargs : gmap string Value
}.

End text_generation.

Export text_generation.

(** ** The world the adapter runs in *)

Record World `{Service} : Type := {
  environ : gmap string string;
  logged : list string;
  requests : list Request
}.

Definition os_getenv `{Service} (name : string) : M World (option string) :=
  gets (fun w => environ w !! name).

Definition logger_info `{Service} (line : string) : M World unit :=
  modify (fun w =>
    {| environ := environ w;
       logged := logged w ++ [line];
       requests := requests w |}).

Definition send `{Service} (r : Request) : M World unit :=
  modify (fun w =>
    {| environ := environ w;
       logged := logged w;
       requests := requests w ++ [r] |}).

(** From [w] to [w'] the environment is the same and the only requests
    added were sent through [client]. *)
Definition sent_through `{Service} (client : AsyncClient) (w w' : World)
  : Prop :=
  environ w' = environ w
  /\ exists new,
       requests w' = (requests w ++ new)%list
       /\ Forall (fun r => req_client r = client) new.

(** A coroutine object: nothing runs before it is driven. *)
Definition Coroutine `{Service} (A : Type) : Type := M World A.

Definition asyncio_run `{Service} {A} (c : Coroutine A) : M World A := c.

Definition await `{Service} {A} (c : Coroutine A) : M World A := c.

(** [f(prompt=prompt, **kwargs)]: a second value for [prompt] is refused
    when the call is made. *)
Definition call_with_prompt `{Service} {A} (method : string)
    (kwargs : gmap string Value) (body : Coroutine A)
  : M World (Coroutine A) :=
  match kwargs !! "prompt" with
  | Some _ =>
      raise (TypeError
               (method +:+ "() got multiple values for keyword argument 'prompt'"))
  | None => ret body
  end.

(** [client.generate(prompt=prompt, **kwargs)]. *)
Definition AsyncClient_generate `{Service} (client : AsyncClient)
    (prompt : string) (kwargs : gmap string Value)
  : M World (Coroutine (Response Details)) :=
  call_with_prompt "generate" kwargs
    (send {| req_client := client; req_endpoint := Generate;
             req_prompt := prompt; req_kwargs := kwargs |} ;;;
     lift (reply client prompt kwargs)).

(** An async generator object.  Calling an [async def] function whose
    body yields runs none of that body and returns no coroutine: it
    returns an object that only [async for] can iterate; [agen_body] is
    what iterating it would do. *)
Record AsyncGenerator `{Service} : Type := {
  agen_name : string;
  agen_body : Coroutine Stream
}.

(** [client.generate_stream(prompt=prompt, **kwargs)]: [generate_stream]
    is an async generator function of the client. *)
Definition AsyncClient_generate_stream `{Service} (client : AsyncClient)
    (prompt : string) (kwargs : gmap string Value)
  : M World AsyncGenerator :=
  body <- call_with_prompt "generate_stream" kwargs
            (send {| req_client := client; req_endpoint := GenerateStream;
                     req_prompt := prompt; req_kwargs := kwargs |} ;;;
             lift (stream_reply client prompt kwargs)) ;;
  ret {| agen_name := "AsyncClient.generate_stream"; agen_body := body |}.

(** [asyncio.run(main)] with an async generator object for [main]:
    [asyncio.run] takes coroutines only and refuses anything else before
    it runs any of it.  (Python ends the text with the address of the
    object, left out here.) *)
Definition asyncio_run_async_generator `{Service} {A} (main : AsyncGenerator)
  : M World A :=
  raise (ValueError
           ("a coroutine was expected, got <async_generator object "
              +:+ agen_name main +:+ ">")).

(** ** [hf_llama2.ClientKwargs] *)

Record ClientKwargs : Type := {
  ck_base_url : string;
  ck_headers : option (gmap string string);
  ck_cookies : option (gmap string string);
  ck_timeout : Z
}.

(** [ClientKwargs(base_url=url)]: [timeout] defaults to 10. *)
Definition ClientKwargs_of_url (url : string) : ClientKwargs :=
  {| ck_base_url := url; ck_headers := None; ck_cookies := None;
     ck_timeout := 10 |}.

(** [AsyncClient] called with the keywords of [k.dict()]. *)
Definition AsyncClient_of_kwargs (k : ClientKwargs) : AsyncClient :=
  {| base_url := ck_base_url k; headers := ck_headers k;
     cookies := ck_cookies k; timeout := ck_timeout k |}.

(** ** [langchain.schema]: the results a chat model returns *)

Record ChatGeneration `{Service} : Type := {
  message : BaseMessage;
  generation_info : option (gmap string Value)
}.

Record ChatResult `{Service} : Type := {
  generations : list ChatGeneration
}.

Record ChatGenerationChunk : Type := {
  chunk_text : string
}.

Record CallbackManagerForLLMRun : Type := {
  run_id : string
}.

(** ** [hf_llama2.HFChatTGI] *)

Module HFChatTGI.

(** The object held in [content_formatter]. *)
Record ContentFormatter `{Service} : Type := {
  _format_request_payload :
    list BaseMessage -> gmap string Value -> Result string
}.

Record instance `{Service} : Type := {
  client_kwargs : ClientKwargs;
  tgi_client : AsyncClient;
  content_formatter : option ContentFormatter;
  model_kwargs : option (gmap string Value)
}.

(** A value of [values], the fields validated before [tgi_client]. *)
Inductive FieldValue : Type :=
| FNone
| FClientKwargs (k : ClientKwargs)
| FObject (type_name : string).

(** [values.get(key)]. *)
Definition values_get (values : gmap string FieldValue) (key : string)
  : FieldValue :=
  default FNone (values !! key).

Definition is_None (v : FieldValue) : bool :=
  match v with FNone => true | _ => false end.

(** [AsyncClient] called with the keywords of [v.dict()]. *)
Definition client_from `{Service} (v : FieldValue) : M World AsyncClient :=
  match v with
  | FClientKwargs k => ret (AsyncClient_of_kwargs k)
  | FNone =>
      raise (AttributeError "'NoneType' object has no attribute 'dict'")
  | FObject type_name =>
      raise (AttributeError
               ("'" +:+ type_name +:+ "' object has no attribute 'dict'"))
  end.

Definition no_url_message : string :=
  "No TGI_URL environment variable found. Please set this to the URL of"
    +:+ " the TGI service, e.g., 'http://127.0.0.1:8080' or set the "
    +:+ " `client_kwargs` when initializing this model.".

Definition _get_client `{Service} : M World AsyncClient :=
  text_generation_service_url <- os_getenv "TGI_URL" ;;
  match text_generation_service_url with
  | None => raise (ValueError no_url_message)
  | Some url =>
      logger_info ("Using TGI_URL: " +:+ url) ;;;
      ret (AsyncClient_of_url url)
  end.

Definition validate_client `{Service} (tgi_client : option AsyncClient)
    (values : gmap string FieldValue) : M World (option AsyncClient) :=
  tgi_client <-
    (if bool_decide (tgi_client = None)
        && negb (is_None (values_get values "tgi_client_parameters"))
     then
       logger_info "Creating new TGI client" ;;;
       client <- client_from (values_get values "tgi_client_parameters") ;;
       ret (Some client)
     else ret tgi_client) ;;
  tgi_client <-
    (if bool_decide (tgi_client = None)
        && is_None (values_get values "tgi_client_parameters")
     then
       client <- _get_client ;;
       ret (Some client)
     else ret tgi_client) ;;
  ret tgi_client.

(** What a caller passes for a field of the model: nothing, [None] or a
    value. *)
Inductive Supplied (A : Type) : Type :=
| Missing
| GivenNone
| Given (a : A).
Arguments Missing {A}.
Arguments GivenNone {A}.
Arguments Given {A} a.

(** The check of a field declared with a plain type and no default: it
    is required, and [None] is no value of it. *)
Definition required_field {A} (name : string) (given : Supplied A)
  : list string :=
  match given with
  | Missing => [name +:+ ": field required"]
  | GivenNone => [name +:+ ": none is not an allowed value"]
  | Given _ => []
  end.

(** [HFChatTGI(client_kwargs=..., tgi_client=..., content_formatter=...,
    model_kwargs=...)].  The fields are validated in the order of their
    declaration.  [client_kwargs: ClientKwargs] and
    [tgi_client: AsyncClient] have no default and no [Optional] type;
    [validate_client] is declared without [pre], so it runs on a client
    that has passed the check of its field, with the fields validated
    before it in [values]; the errors of all fields are raised together. *)
Definition construct `{Service}
    (given_client_kwargs : Supplied ClientKwargs)
    (given_tgi_client : Supplied AsyncClient)
    (given_content_formatter : option ContentFormatter)
    (given_model_kwargs : option (gmap string Value)) : M World instance :=
  let values : gmap string FieldValue :=
    match given_client_kwargs with
    | Given k => {[ "client_kwargs" := FClientKwargs k ]}
    | _ => ∅
    end in
  validated <-
    (match given_tgi_client with
     | Given client => validate_client (Some client) values
     | _ => ret None
     end) ;;
  match given_client_kwargs, validated with
  | Given k, Some client =>
      ret {| client_kwargs := k;
             tgi_client := client;
             content_formatter := given_content_formatter;
             model_kwargs := given_model_kwargs |}
  | _, _ =>
      raise (OtherError "ValidationError"
               (join "; "
                  (required_field "client_kwargs" given_client_kwargs
                     ++ required_field "tgi_client" given_tgi_client)%list))
  end.

(** [self.model_kwargs or {}]. *)
Definition model_kwargs_or_empty `{Service} (self : instance)
  : gmap string Value :=
  match model_kwargs self with
  | Some kw => if bool_decide (size kw = 0) then ∅ else kw
  | None => ∅
  end.

(** [self.content_formatter._format_request_payload(messages, kw)]. *)
Definition format_request_payload `{Service} (self : instance)
    (messages : list BaseMessage) (kw : gmap string Value) : M World string :=
  match content_formatter self with
  | Some formatter => lift (_format_request_payload formatter messages kw)
  | None =>
      raise (AttributeError
        "'NoneType' object has no attribute '_format_request_payload'")
  end.

Definition _call_base `{Service} (self : instance)
    (messages : list BaseMessage) (stop : option (list string))
    (run_manager : option CallbackManagerForLLMRun)
    (kwargs : gmap string Value) : M World (Response Details) :=
  let _model_kwargs := model_kwargs_or_empty self in
  prompt <- format_request_payload self messages _model_kwargs ;;
  coroutine <- AsyncClient_generate (tgi_client self) prompt kwargs ;;
  response <- asyncio_run coroutine ;;
  ret response.

Definition _call `{Service} (self : instance)
    (messages : list BaseMessage) (stop : option (list string))
    (run_manager : option CallbackManagerForLLMRun)
    (kwargs : gmap string Value) : M World string :=
  response <- _call_base self messages stop run_manager kwargs ;;
  ret (generated_text response).

Definition _create_chat_result `{Service} (self : instance)
    (response : Response Details) : ChatResult :=
  {| generations :=
       [ {| message := Message AIMessage (generated_text response);
            generation_info := Some (Details_dict (details response)) |} ] |}.

Definition _generate `{Service} (self : instance)
    (messages : list BaseMessage) (stop : option (list string))
    (run_manager : option CallbackManagerForLLMRun)
    (kwargs : gmap string Value) : M World ChatResult :=
  response <- _call_base self messages stop run_manager kwargs ;;
  ret (_create_chat_result self response).

Definition _agenerate `{Service} (self : instance)
    (messages : list BaseMessage) (stop : option (list string))
    (run_manager : option CallbackManagerForLLMRun)
    (kwargs : gmap string Value) : Coroutine ChatResult :=
  let _model_kwargs := model_kwargs_or_empty self in
  prompt <- format_request_payload self messages _model_kwargs ;;
  coroutine <- AsyncClient_generate (tgi_client self) prompt kwargs ;;
  response <- await coroutine ;;
  ret (_create_chat_result self response).

(** Modelled from the spec: [HFChatTGI._create_chat_generation_chunk],
    which [_stream] calls on every fragment and which [hf_llama2.py] does
    not define.  The spec has the streaming operation yield the emitted
    fragments of generated text themselves, one chunk per fragment. *)
Definition _create_chat_generation_chunk `{Service} (self : instance)
    (chunk : string) : ChatGenerationChunk :=
  {| chunk_text := chunk |}.

(** The generator object [_stream] returns.  Calling [_stream] runs none
    of its body; the first [next] runs it up to the first [yield]. *)
Inductive generator `{Service} : Type :=
| Created (self : instance) (messages : list BaseMessage)
    (stop : option (list string))
    (run_manager : option CallbackManagerForLLMRun)
    (kwargs : gmap string Value)
| Suspended (self : instance) (response : Stream)
| Finished.

Definition _stream `{Service} (self : instance)
    (messages : list BaseMessage) (stop : option (list string))
    (run_manager : option CallbackManagerForLLMRun)
    (kwargs : gmap string Value) : generator :=
  Created self messages stop run_manager kwargs.

(** The statements of [_stream] before its loop. *)
Definition _stream_enter `{Service} (self : instance)
    (messages : list BaseMessage) (kwargs : gmap string Value)
  : M World Stream :=
  let _model_kwargs := model_kwargs_or_empty self in
  prompt <- format_request_payload self messages _model_kwargs ;;
  stream <- AsyncClient_generate_stream (tgi_client self) prompt kwargs ;;
  response <- asyncio_run_async_generator stream ;;
  ret response.

(** One turn of [for chunk in response: yield ...]: the next fragment is
    yielded, the end of the stream ends the generator, a failure of the
    stream is raised from it. *)
Definition _stream_loop `{Service} (self : instance) (response : Stream)
  : Result ChatGenerationChunk * generator :=
  match response with
  | Fragment chunk rest =>
      (Ok (_create_chat_generation_chunk self chunk), Suspended self rest)
  | Completed => (Raise StopIteration, Finished)
  | Failed e => (Raise e, Finished)
  end.

(** [next(g)]: the chunk yielded or the exception raised, and the
    generator afterwards. *)
Definition next `{Service} (g : generator) (w : World)
  : Result ChatGenerationChunk * generator * World :=
  match g with
  | Created self messages stop run_manager kwargs =>
      match _stream_enter self messages kwargs w with
      | (Ok response, w') => (_stream_loop self response, w')
      | (Raise e, w') => (Raise e, Finished, w')
      end
  | Suspended self response => (_stream_loop self response, w)
  | Finished => (Raise StopIteration, Finished, w)
  end.

(** The adapter a generator works for, while it has a frame. *)
Definition frame_self `{Service} (g : generator) : option instance :=
  match g with
  | Created self _ _ _ _ => Some self
  | Suspended self _ => Some self
  | Finished => None
  end.

(** [list(g)], with a bound on the number of calls of [next]: [None] when
    the bound is reached first. *)
Fixpoint list_of_generator `{Service} (fuel : nat) (g : generator) (w : World)
  : option (Result (list ChatGenerationChunk)) * generator * World :=
  match fuel with
  | O => (None, g, w)
  | S fuel' =>
      match next g w with
      | (Ok chunk, g', w') =>
          match list_of_generator fuel' g' w' with
          | (Some (Ok chunks), g'', w'') => (Some (Ok (chunk :: chunks)), g'', w'')
          | other => other
          end
      | (Raise StopIteration, g', w') => (Some (Ok []), g', w')
      | (Raise e, g', w') => (Some (Raise e), g', w')
      end
  end.

End HFChatTGI.

(** ** Driving a generator by hand *)

(** The outcomes of [n] successive calls of [next(g)], with the generator
    and the world they leave. *)
Fixpoint nexts `{Service} (n : nat) (g : HFChatTGI.generator) (w : World)
  : list (Result ChatGenerationChunk) * HFChatTGI.generator * World :=
  match n with
  | O => ([], g, w)
  | S n' =>
      match HFChatTGI.next g w with
      | (r, g', w') =>
          match nexts n' g' w' with
          | (rs, g'', w'') => (r :: rs, g'', w'')
          end
      end
  end.

(** The stream that delivers [fragments] and goes on as [rest]. *)
Fixpoint Stream_then (fragments : list string) (rest : Stream) : Stream :=
  match fragments with
  | [] => rest
  | text :: fragments' => Fragment text (Stream_then fragments' rest)
  end.

(** The world after one more request. *)
Definition with_request `{Service} (w : World) (r : Request) : World :=
  {| environ := environ w; logged := logged w;
     requests := (requests w ++ [r])%list |}.

(** ** [hugginface_text_gen_inference.BaseHuggingFaceTextGenChat] *)

Module BaseHuggingFaceTextGenChat.

(** The [llm] field: what calling it with a prompt, stop sequences, a run
    manager and further keywords does. *)
Record LLM `{Service} (S : Type) : Type := {
  llm_call :
    string -> list string -> option CallbackManagerForLLMRun
    -> gmap string Value -> M S string
}.
Arguments llm_call {_ S} _ _ _ _ _.

(** [raise NotImplementedError]. *)
Definition NotImplementedError : Exception :=
  OtherError "NotImplementedError" EmptyString.

(** The two abstract methods, as the class defines them. *)
Definition _preprocess {S} (messages : list BaseMessage) : M S string :=
  raise NotImplementedError.

Definition _postprocess `{Service} {S} (output : string) : M S ChatResult :=
  raise NotImplementedError.

(** [_generate], over the methods and the attributes of [self] it uses:
    [self._preprocess], [self._postprocess], [self.HF_EOS_TOKEN] (read
    only when [stop] is [None] or empty) and [self.llm]. *)
Definition _generate `{Service} {S}
    (self_preprocess : list BaseMessage -> M S string)
    (self_postprocess : string -> M S ChatResult)
    (self_getattr : string -> M S string)
    (self_llm : LLM S)
    (messages : list BaseMessage) (stop : option (list string))
    (run_manager : option CallbackManagerForLLMRun)
    (kwargs : gmap string Value) : M S ChatResult :=
  input_text <- self_preprocess messages ;;
  stop_tokens <-
    (match stop with
     | Some (token :: tokens) => ret (token :: tokens)
     | _ => eos <- self_getattr "HF_EOS_TOKEN" ;; ret [eos]
     end) ;;
  model_output <-
    (match kwargs !! "prompt" with
     | Some _ =>
         raise (TypeError
           "__call__() got multiple values for keyword argument 'prompt'")
     | None => llm_call self_llm input_text stop_tokens run_manager kwargs
     end) ;;
  self_postprocess model_output.

End BaseHuggingFaceTextGenChat.

(** [_generate] on an object of a concrete subclass of [Llama2Chat]:
    [Llama2Chat] overrides [_preprocess] and leaves [_postprocess]
    abstract, so an object that can exist has the [_preprocess] and the
    attributes of [Llama2Chat] and a [_postprocess] of its own. *)
Definition Llama2Chat_generate `{Service} {S} (self : Llama2Chat.instance)
    (self_postprocess : string -> M S ChatResult)
    (self_llm : BaseHuggingFaceTextGenChat.LLM S)
    (messages : list BaseMessage) (stop : option (list string))
    (run_manager : option CallbackManagerForLLMRun)
    (kwargs : gmap string Value) : M S ChatResult :=
  BaseHuggingFaceTextGenChat._generate
    (Llama2Chat._preprocess self)
    self_postprocess
    (Llama2Chat.getattr self)
    self_llm messages stop run_manager kwargs.

(** ** The prompt format, in the words of the specification

    The message variants the formatter accepts, the control tokens and the
    template of each variant. *)

Module Spec.

Inductive Turn : Type :=
| System (text : string)
| Human (text : string)
| Assistant (text : string).

Definition BOS : string := "<s>".
Definition EOS : string := "</s>".
Definition INST_OPEN : string := "[INST]".
Definition INST_CLOSE : string := "[/INST]".
Definition SYS_OPEN : string := "<<SYS>>" +:+ nl.
Definition SYS_CLOSE : string := nl +:+ "<</SYS>>" +:+ nl +:+ nl.

Definition template (t : Turn) : string :=
  match t with
  | System text => BOS +:+ SYS_OPEN +:+ text +:+ SYS_CLOSE +:+ EOS
  | Human text => BOS +:+ INST_OPEN +:+ text +:+ INST_CLOSE
  | Assistant text => text +:+ EOS
  end.

(** The templates of the messages, in input order, separated by the join
    string. *)
Fixpoint format (turns : list Turn) (join_string : string) : string :=
  match turns with
  | [] => EmptyString
  | [t] => template t
  | t :: rest => template t +:+ join_string +:+ format rest join_string
  end.

(** The message object of a variant. *)
Definition to_message (t : Turn) : BaseMessage :=
  match t with
  | System text => Message SystemMessage text
  | Human text => Message HumanMessage text
  | Assistant text => Message AIMessage text
  end.

End Spec.

(** A message of one of the three classes the formatters know. *)
Definition supported (message : BaseMessage) : bool :=
  isinstance message HumanMessage
  || isinstance message AIMessage
  || isinstance message SystemMessage.

(** ** Sample objects *)

Module Sample.

(** A service that answers every request with the same text and details,
    and streams the same two fragments. *)
#[local] Instance service : Service := {|
  Value := string;
  Details := list (string * string);
  Details_dict := list_to_map;
  reply := fun _ _ _ =>
    Ok {| generated_text := "Hello";
          details := [("finish_reason", "eos_token")] |};
  stream_reply := fun _ _ _ => Ok (Stream_of_list ["Hel"; "lo"])
|}.

(** A content formatter that formats with [HFLlamaFormatter]. *)
Definition formatter : HFChatTGI.ContentFormatter := {|
  HFChatTGI._format_request_payload := fun messages _ =>
    fst (HFLlamaFormatter.dialog2string HFLlamaFormatter.cls messages
           HFLlamaFormatter.join_char_default tt)
|}.

Definition adapter (url : string) : HFChatTGI.instance := {|
  HFChatTGI.client_kwargs := ClientKwargs_of_url url;
  HFChatTGI.tgi_client := AsyncClient_of_url url;
  HFChatTGI.content_formatter := Some formatter;
  HFChatTGI.model_kwargs := None
|}.

Definition world (env : gmap string string) : World :=
  {| environ := env; logged := []; requests := [] |}.

Definition dialog : list BaseMessage :=
  [Message SystemMessage "a"; Message HumanMessage "b"].

(** The prompt of [dialog]. *)
Definition prompt : string :=
  "<s><<SYS>>" +:+ nl +:+ "a" +:+ nl +:+ "<</SYS>>" +:+ nl +:+ nl
    +:+ "</s>" +:+ nl +:+ "<s>[INST]b[/INST]".

(** An adapter left without a content formatter. *)
Definition bare_adapter (url : string) : HFChatTGI.instance := {|
  HFChatTGI.client_kwargs := ClientKwargs_of_url url;
  HFChatTGI.tgi_client := AsyncClient_of_url url;
  HFChatTGI.content_formatter := None;
  HFChatTGI.model_kwargs := None
|}.

End Sample.

Module Faulty.

(** A service that refuses every single-shot request and breaks every
    stream after its first fragment. *)
#[local] Instance service : Service := {|
  Value := string;
  Details := list (string * string);
  Details_dict := list_to_map;
  reply := fun _ _ _ => Raise (OtherError "ClientError" "refused");
  stream_reply := fun _ _ _ =>
    Ok (Stream_then ["Hel"] (Failed (OtherError "ClientError" "reset")))
|}.

Definition formatter : HFChatTGI.ContentFormatter := {|
  HFChatTGI._format_request_payload := fun messages _ =>
    fst (HFLlamaFormatter.dialog2string HFLlamaFormatter.cls messages
           HFLlamaFormatter.join_char_default tt)
|}.

Definition adapter (url : string) : HFChatTGI.instance := {|
  HFChatTGI.client_kwargs := ClientKwargs_of_url url;
  HFChatTGI.tgi_client := AsyncClient_of_url url;
  HFChatTGI.content_formatter := Some formatter;
  HFChatTGI.model_kwargs := None
|}.

Definition world (env : gmap string string) : World :=
  {| environ := env; logged := []; requests := [] |}.

End Faulty.

Module SampleLLM.

(** A language model that answers every prompt with the prompt itself
    and counts its calls in the state. *)
Definition echo : BaseHuggingFaceTextGenChat.LLM (H := Sample.service) nat := {|
  BaseHuggingFaceTextGenChat.llm_call := fun prompt _ _ _ calls =>
    (Ok prompt, S calls)
|}.

(** The [_postprocess] of a concrete subclass: the output as the one
    Assistant message of the result. *)
Definition postprocess (output : string)
  : M nat (ChatResult (H := Sample.service)) :=
  ret {| generations :=
           [ {| message := Message AIMessage output;
                generation_info := None |} ] |}.

End SampleLLM.

(** ** Properties of the formatters *)

Section formatter_properties.

Context {S : Type}.

Implicit Types (s : S) (message : BaseMessage) (t : Spec.Turn).

Lemma bind_ok {A B} (m : M S A) (k : A -> M S B) s a s' :
  m s = (Ok a, s') -> bind m k s = k a s'.
Proof. intros Hm. unfold bind. now rewrite Hm. Qed.

Lemma bind_raise {A B} (m : M S A) (k : A -> M S B) s e s' :
  m s = (Raise e, s') -> bind m k s = (Raise e, s').
Proof. intros Hm. unfold bind. now rewrite Hm. Qed.

(** The supported messages are the message objects of the three variants. *)
Lemma supported_to_message t : supported (Spec.to_message t) = true.
Proof. now destruct t. Qed.

Lemma supported_inv message :
  supported message = true -> exists t, message = Spec.to_message t.
Proof.
  destruct message as [c text]. destruct c; try discriminate; intros _.
  - now exists (Spec.Human text).
  - now exists (Spec.Assistant text).
  - now exists (Spec.System text).
Qed.

(** So a dialog of supported messages is the image of a list of turns. *)
Lemma supported_dialog_inv (dialog : list BaseMessage) :
  Forall (fun message => supported message = true) dialog ->
  exists turns, dialog = map Spec.to_message turns.
Proof.
  induction 1 as [|message dialog Hm _ [turns ->]]; [now exists []|].
  destruct (supported_inv message Hm) as [t ->]. now exists (t :: turns).
Qed.

(** A supported message is turned into the template of its variant. *)
Lemma message2string_template t s :
  HFLlamaFormatter.message2string HFLlamaFormatter.cls (Spec.to_message t) s
  = (Ok (Spec.template t), s).
Proof. now destruct t. Qed.

Lemma message2string_unsupported cls message s :
  supported message = false ->
  HFLlamaFormatter.message2string cls message s
  = (Raise (ValueError (unsupported_message message)), s).
Proof.
  unfold supported, HFLlamaFormatter.message2string.
  destruct (isinstance message HumanMessage); [discriminate|].
  destruct (isinstance message AIMessage); [discriminate|].
  destruct (isinstance message SystemMessage); [discriminate|].
  reflexivity.
Qed.

Lemma comprehension_templates (turns : list Spec.Turn) s :
  list_comprehension (HFLlamaFormatter.message2string HFLlamaFormatter.cls)
    (map Spec.to_message turns) s
  = (Ok (map Spec.template turns), s).
Proof.
  induction turns as [|t turns IH]; [reflexivity|].
  cbn [map list_comprehension].
  rewrite (bind_ok _ _ _ _ _ (message2string_template t s)).
  rewrite (bind_ok _ _ _ _ _ IH).
  reflexivity.
Qed.

(** [str.join] and the specification's concatenation agree. *)
Lemma join_templates (turns : list Spec.Turn) (join_string : string) :
  join join_string (map Spec.template turns) = Spec.format turns join_string.
Proof.
  unfold join.
  induction turns as [|t [|t' turns] IH]; [reflexivity..|].
  change (Spec.template t +:+ join_string
            +:+ String.concat join_string (map Spec.template (t' :: turns))
          = Spec.template t +:+ join_string
            +:+ Spec.format (t' :: turns) join_string).
  now rewrite IH.
Qed.

(** Every call of a formatter leaves the state as it found it. *)
Lemma message2string_state cls message s :
  snd (HFLlamaFormatter.message2string cls message s) = s.
Proof.
  unfold HFLlamaFormatter.message2string.
  repeat (match goal with |- context [if ?b then _ else _] => destruct b end);
    reflexivity.
Qed.

End formatter_properties.

(** The error text names the class of the message it refuses. *)
Lemma unsupported_message_class (m1 m2 : BaseMessage) :
  unsupported_message m1 = unsupported_message m2 -> type m1 = type m2.
Proof.
  destruct m1 as [c1 text1], m2 as [c2 text2].
  destruct c1, c2; vm_compute; congruence.
Qed.

(** C1: for every sequence of System, Human and Assistant messages and
    every join string, [HFLlamaFormatter.dialog2string] returns the
    templates of the messages, in input order and separated by the join
    string: nothing is reordered, dropped or cut. *)
Theorem dialog2string_format {S} (turns : list Spec.Turn)
    (join_char : string) (s : S) :
  HFLlamaFormatter.dialog2string HFLlamaFormatter.cls
    (map Spec.to_message turns) join_char s
  = (Ok (Spec.format turns join_char), s).
Proof.
  unfold HFLlamaFormatter.dialog2string.
  rewrite (bind_ok _ _ _ _ _ (comprehension_templates turns s)).
  cbv zeta. unfold ret. now rewrite join_templates.
Qed.

(** The example of the specification, with the default join string. *)
Example dialog2string_system_human :
  HFLlamaFormatter.dialog2string HFLlamaFormatter.cls Sample.dialog
    HFLlamaFormatter.join_char_default tt
  = (Ok ("<s><<SYS>>" +:+ nl +:+ "a" +:+ nl +:+ "<</SYS>>" +:+ nl +:+ nl
           +:+ "</s>" +:+ nl +:+ "<s>[INST]b[/INST]"), tt).
Proof. reflexivity. Qed.

(** C9: the formatter turns the empty sequence of messages into the empty
    string, for every join string. *)
Theorem dialog2string_empty {S} (join_char : string) (s : S) :
  HFLlamaFormatter.dialog2string HFLlamaFormatter.cls [] join_char s
  = (Ok EmptyString, s).
Proof. reflexivity. Qed.

Lemma getattr_state {S} (self : Llama2Chat.instance) (name : string) (s : S) :
  snd (Llama2Chat.getattr self name s) = s.
Proof.
  unfold Llama2Chat.getattr.
  destruct (Llama2Chat.attributes self !! name); reflexivity.
Qed.

Lemma getattr_bind_state {S B} (self : Llama2Chat.instance) (name : string)
    (k : string -> M S B) (s : S) :
  (forall v, snd (k v s) = s) ->
  snd (bind (Llama2Chat.getattr self name) k s) = s.
Proof.
  intros Hk. unfold bind, Llama2Chat.getattr.
  destruct (Llama2Chat.attributes self !! name); cbn; [apply Hk|reflexivity].
Qed.

Lemma llama2chat_message2string_state {S} (self : Llama2Chat.instance)
    (message : BaseMessage) (s : S) :
  snd (Llama2Chat.message2string self message s) = s.
Proof.
  unfold Llama2Chat.message2string.
  repeat (match goal with |- context [if ?b then _ else _] => destruct b end);
    repeat (apply getattr_bind_state; intros); reflexivity.
Qed.

Lemma llama2chat_message2string_unsupported {S} (self : Llama2Chat.instance)
    (message : BaseMessage) (s : S) :
  supported message = false ->
  Llama2Chat.message2string self message s
  = (Raise (ValueError (unsupported_message message)), s).
Proof.
  unfold supported, Llama2Chat.message2string.
  destruct (isinstance message HumanMessage); [discriminate|].
  destruct (isinstance message AIMessage); [discriminate|].
  destruct (isinstance message SystemMessage); [discriminate|].
  reflexivity.
Qed.

(** A comprehension whose body keeps the state and raises on one of the
    elements raises. *)
Lemma comprehension_raises {S A B} (f : A -> M S B) (xs : list A) (x : A)
    (s : S) :
  (forall y t, snd (f y t) = t) ->
  x ∈ xs ->
  (exists e, f x s = (Raise e, s)) ->
  exists e, list_comprehension f xs s = (Raise e, s).
Proof.
  intros Hf Hin [e0 He0].
  induction xs as [|y xs IH]; [now apply elem_of_nil in Hin|].
  cbn [list_comprehension]. unfold bind at 1.
  pose proof (Hf y s) as Hy.
  destruct (f y s) as [[b|e] t] eqn:Hfy; cbn in Hy; subst t; [|now exists e].
  apply elem_of_cons in Hin as [->|Hin]; [congruence|].
  destruct (IH Hin) as [e He]. exists e.
  unfold bind. now rewrite He.
Qed.

Lemma comprehension_cons_ok {S A B} (f : A -> M S B) (x : A) (xs : list A)
    (s : S) (y : B) (s1 : S) :
  f x s = (Ok y, s1) ->
  list_comprehension f (x :: xs) s
  = match list_comprehension f xs s1 with
    | (Ok ys, s2) => (Ok (y :: ys), s2)
    | (Raise e, s2) => (Raise e, s2)
    end.
Proof. intros Hx. cbn [list_comprehension]. unfold bind. now rewrite Hx. Qed.

Lemma dialog2string_unfold {S} cls (dialog : list BaseMessage)
    (join_char : string) (s : S) :
  HFLlamaFormatter.dialog2string cls dialog join_char s
  = match list_comprehension (HFLlamaFormatter.message2string cls) dialog s with
    | (Ok parts, s') => (Ok (join join_char parts), s')
    | (Raise e, s') => (Raise e, s')
    end.
Proof. reflexivity. Qed.

(** [dialog2string] on a dialog with an unsupported message raises the
    error of the first such message. *)
Lemma dialog2string_unsupported {S} (dialog : list BaseMessage)
    (message : BaseMessage) (join_char : string) (s : S) :
  message ∈ dialog ->
  supported message = false ->
  exists first,
    first ∈ dialog /\ supported first = false /\
    HFLlamaFormatter.dialog2string HFLlamaFormatter.cls dialog join_char s
    = (Raise (ValueError (unsupported_message first)), s).
Proof.
  intros Hin Hu.
  induction dialog as [|m dialog IH]; [now apply elem_of_nil in Hin|].
  destruct (supported m) eqn:Hm.
  - apply elem_of_cons in Hin as [->|Hin]; [congruence|].
    destruct (IH Hin) as (first & Hfirst & Hfu & Hrun).
    exists first. split; [now apply elem_of_cons; right|]. split; [exact Hfu|].
    destruct (supported_inv m Hm) as [t ->].
    revert Hrun. rewrite !dialog2string_unfold.
    rewrite (comprehension_cons_ok _ _ _ _ _ _ (message2string_template t s)).
    destruct (list_comprehension _ dialog s) as [[parts|e] s'];
      [discriminate|congruence].
  - exists m. split; [now apply elem_of_cons; left|]. split; [exact Hm|].
    rewrite dialog2string_unfold. cbn [list_comprehension]. unfold bind.
    now rewrite (message2string_unsupported HFLlamaFormatter.cls m s Hm).
Qed.

(** C2: a message that is neither a Human, an Assistant nor a System
    message makes both formatters raise the [ValueError] whose text names
    the class of the message; formatting a whole dialog that holds such a
    message raises too, so that no prompt, complete or partial, is
    returned, and no template is substituted for the message. *)
Theorem unsupported_message_rejected {S} (message : BaseMessage) (s : S) :
  supported message = false ->
  HFLlamaFormatter.message2string HFLlamaFormatter.cls message s
  = (Raise (ValueError (unsupported_message message)), s)
  /\ (forall self,
        Llama2Chat.message2string self message s
        = (Raise (ValueError (unsupported_message message)), s))
  /\ (forall other,
        unsupported_message other = unsupported_message message ->
        type other = type message)
  /\ (forall dialog join_char,
        message ∈ dialog ->
        exists first,
          first ∈ dialog /\ supported first = false /\
          HFLlamaFormatter.dialog2string HFLlamaFormatter.cls dialog
            join_char s
          = (Raise (ValueError (unsupported_message first)), s))
  /\ (forall self dialog,
        message ∈ dialog ->
        exists e, Llama2Chat._preprocess self dialog s = (Raise e, s)).
Proof.
  intros Hu. repeat split.
  - now apply message2string_unsupported.
  - intros self. now apply llama2chat_message2string_unsupported.
  - intros other. apply unsupported_message_class.
  - intros dialog join_char Hin. now apply dialog2string_unsupported with message.
  - intros self dialog Hin.
    destruct (comprehension_raises (Llama2Chat.message2string self) dialog
                message s (llama2chat_message2string_state self) Hin) as [e He].
    { eexists. now apply llama2chat_message2string_unsupported. }
    exists e. unfold Llama2Chat._preprocess, bind.
    change (Llama2Chat.getattr self "join_char" s)
      with (Ok (Llama2Chat.join_char self), s).
    cbn. now rewrite He.
Qed.

Lemma unsupported_message_rejected_witness :
  supported (Message ChatMessage "hello") = false
  /\ HFLlamaFormatter.message2string HFLlamaFormatter.cls
       (Message ChatMessage "hello") tt
     = (Raise (ValueError (unsupported_message (Message ChatMessage "hello"))),
        tt).
Proof.
  split; [reflexivity|].
  exact (proj1 (unsupported_message_rejected (Message ChatMessage "hello") tt
                  eq_refl)).
Defined.

(** The error text of the sample, as Python prints it. *)
Example unsupported_message_text :
  unsupported_message (Message ChatMessage "hello")
  = "Received unsupported message type: "
    +:+ "<class 'langchain.schema.messages.ChatMessage'>." +:+ nl
    +:+ " Supported message types for the LLaMa-2 Foundation Model: "
    +:+ "[<class 'langchain.schema.messages.SystemMessage'>, "
    +:+ "<class 'langchain.schema.messages.HumanMessage'>, "
    +:+ "<class 'langchain.schema.messages.AIMessage'>]".
Proof. reflexivity. Qed.

(** No instance of [Llama2Chat] has the attribute its formatter reads the
    beginning-of-sequence token from. *)
Lemma llama2chat_no_bos_token (self : Llama2Chat.instance) :
  Llama2Chat.attributes self !! "HF_BOS_TOKEN" = None.
Proof. reflexivity. Qed.

(** On an Assistant message an instance with the declared defaults and
    the classmethod formatter return the same string. *)
Lemma llama2chat_message2string_ai {S} (text : string) (s : S) :
  Llama2Chat.message2string Llama2Chat.default (Message AIMessage text) s
  = HFLlamaFormatter.message2string HFLlamaFormatter.cls
      (Message AIMessage text) s.
Proof. reflexivity. Qed.

(** Every Human and every System message makes the instance method
    raise, whatever the fields of the instance hold. *)
Lemma llama2chat_message2string_bos {S} (self : Llama2Chat.instance)
    (message : BaseMessage) (s : S) :
  type message = HumanMessage \/ type message = SystemMessage ->
  Llama2Chat.message2string self message s
  = (Raise (AttributeError
              "'Llama2Chat' object has no attribute 'HF_BOS_TOKEN'"), s).
Proof.
  destruct message as [c text]. cbn [type].
  intros [-> | ->]; reflexivity.
Qed.

(** C6: on a Human message the two formatters part: the classmethod
    returns the instruction template, the instance method raises, since
    [Llama2Chat] declares [HF_BOS_TOKE] and reads [HF_BOS_TOKEN]. *)
Theorem message2string_formatters_differ :
  HFLlamaFormatter.message2string HFLlamaFormatter.cls
    (Message HumanMessage "hi") tt
  = (Ok "<s>[INST]hi[/INST]", tt)
  /\ Llama2Chat.message2string Llama2Chat.default
       (Message HumanMessage "hi") tt
     = (Raise (AttributeError
                 "'Llama2Chat' object has no attribute 'HF_BOS_TOKEN'"), tt).
Proof. split; reflexivity. Qed.

(** ** Properties of the adapter *)

Section adapter_properties.

Context `{Service}.

Implicit Types (w : World) (self : HFChatTGI.instance).

Lemma bind_assoc {S A B C} (m : M S A) (k : A -> M S B) (h : B -> M S C)
    (s : S) :
  bind (bind m k) h s = bind m (fun a => bind (k a) h) s.
Proof. unfold bind. destruct (m s) as [[a|e] s']; reflexivity. Qed.

Lemma bind_ext {S A B} (m : M S A) (k k' : A -> M S B) (s : S) :
  (forall a s', k a s' = k' a s') -> bind m k s = bind m k' s.
Proof. intros Hk. unfold bind. destruct (m s) as [[a|e] s']; [apply Hk|reflexivity]. Qed.

(** An explicit client is returned as it is. *)
Lemma validate_client_given (client : AsyncClient)
    (values : gmap string HFChatTGI.FieldValue) w :
  HFChatTGI.validate_client (Some client) values w = (Ok (Some client), w).
Proof. reflexivity. Qed.

(** Client parameters found in [values] build the client. *)
Lemma validate_client_parameters (k : ClientKwargs)
    (values : gmap string HFChatTGI.FieldValue) w :
  values !! "tgi_client_parameters" = Some (HFChatTGI.FClientKwargs k) ->
  HFChatTGI.validate_client None values w
  = (Ok (Some (AsyncClient_of_kwargs k)),
     {| environ := environ w;
        logged := logged w ++ ["Creating new TGI client"];
        requests := requests w |}).
Proof.
  intros Hv. unfold HFChatTGI.validate_client, HFChatTGI.values_get.
  rewrite Hv. reflexivity.
Qed.

(** Without them the URL comes from the environment. *)
Lemma validate_client_environment (url : string)
    (values : gmap string HFChatTGI.FieldValue) w :
  HFChatTGI.values_get values "tgi_client_parameters" = HFChatTGI.FNone ->
  environ w !! "TGI_URL" = Some url ->
  HFChatTGI.validate_client None values w
  = (Ok (Some (AsyncClient_of_url url)),
     {| environ := environ w;
        logged := logged w ++ ["Using TGI_URL: " +:+ url];
        requests := requests w |}).
Proof.
  intros Hv Henv. unfold HFChatTGI.validate_client. rewrite Hv.
  cbn [bool_decide decide_rel andb negb HFChatTGI.is_None].
  unfold bind at 1. cbn [ret].
  unfold bind, HFChatTGI._get_client, os_getenv, gets, bind.
  cbn. rewrite Henv. reflexivity.
Qed.

(** With neither, construction fails. *)
Lemma validate_client_nothing (values : gmap string HFChatTGI.FieldValue) w :
  HFChatTGI.values_get values "tgi_client_parameters" = HFChatTGI.FNone ->
  environ w !! "TGI_URL" = None ->
  HFChatTGI.validate_client None values w
  = (Raise (ValueError HFChatTGI.no_url_message), w).
Proof.
  intros Hv Henv. unfold HFChatTGI.validate_client. rewrite Hv.
  unfold bind, HFChatTGI._get_client, os_getenv, gets, bind.
  cbn. rewrite Henv. reflexivity.
Qed.

Lemma sent_through_refl (client : AsyncClient) w : sent_through client w w.
Proof. split; [reflexivity|]. exists []. now rewrite app_nil_r. Qed.

Lemma sent_through_trans (client : AsyncClient) w1 w2 w3 :
  sent_through client w1 w2 -> sent_through client w2 w3 ->
  sent_through client w1 w3.
Proof.
  intros [He1 (n1 & Hr1 & Hf1)] [He2 (n2 & Hr2 & Hf2)].
  split; [congruence|]. exists (n1 ++ n2)%list. split.
  - now rewrite Hr2, Hr1, app_assoc.
  - now apply Forall_app.
Qed.

(** What a call of one of the two endpoints does: it is refused, or it
    sends one request through the client and hands back the answer of the
    service. *)
Lemma call_with_prompt_run {A} (method : string) (kwargs : gmap string Value)
    (body : Coroutine A) w :
  call_with_prompt method kwargs body w
  = match kwargs !! "prompt" with
    | Some _ =>
        (Raise (TypeError
           (method +:+ "() got multiple values for keyword argument 'prompt'")),
         w)
    | None => (Ok body, w)
    end.
Proof. unfold call_with_prompt. destruct (kwargs !! "prompt"); reflexivity. Qed.

Lemma format_request_payload_state self (messages : list BaseMessage)
    (kw : gmap string Value) w :
  snd (HFChatTGI.format_request_payload self messages kw w) = w.
Proof.
  unfold HFChatTGI.format_request_payload.
  destruct (HFChatTGI.content_formatter self); reflexivity.
Qed.

Lemma call_base_sent self (messages : list BaseMessage)
    (stop : option (list string))
    (run_manager : option CallbackManagerForLLMRun)
    (kwargs : gmap string Value) w :
  sent_through (HFChatTGI.tgi_client self) w
    (snd (HFChatTGI._call_base self messages stop run_manager kwargs w)).
Proof.
  unfold HFChatTGI._call_base. cbv zeta. unfold bind at 1.
  pose proof (format_request_payload_state self messages
                (HFChatTGI.model_kwargs_or_empty self) w) as Hs.
  destruct (HFChatTGI.format_request_payload _ _ _ w) as [[prompt|e] w1];
    cbn in Hs; subst w1; [|apply sent_through_refl].
  unfold bind at 1, AsyncClient_generate. rewrite call_with_prompt_run.
  destruct (kwargs !! "prompt"); [apply sent_through_refl|].
  assert (Hsent : sent_through (HFChatTGI.tgi_client self) w
            {| environ := environ w; logged := logged w;
               requests := (requests w ++
                 [{| req_client := HFChatTGI.tgi_client self;
                     req_endpoint := Generate;
                     req_prompt := prompt; req_kwargs := kwargs |}])%list |}).
  { split; [reflexivity|]. eexists. split; [reflexivity|].
    now repeat constructor. }
  unfold asyncio_run, bind, send, modify, lift, ret.
  destruct (reply _ prompt kwargs); exact Hsent.
Qed.

Lemma bind_ret_state {S A B} (m : M S A) (f : A -> B) (s : S) :
  snd (bind m (fun a => ret (f a)) s) = snd (m s).
Proof. unfold bind. destruct (m s) as [[a|e] s']; reflexivity. Qed.

(** [_agenerate] is [_call_base] followed by [_create_chat_result]. *)
Lemma agenerate_call_base self (messages : list BaseMessage)
    (stop : option (list string))
    (run_manager : option CallbackManagerForLLMRun)
    (kwargs : gmap string Value) w :
  HFChatTGI._agenerate self messages stop run_manager kwargs w
  = bind (HFChatTGI._call_base self messages stop run_manager kwargs)
      (fun response => ret (HFChatTGI._create_chat_result self response)) w.
Proof.
  unfold HFChatTGI._agenerate, HFChatTGI._call_base, await, asyncio_run.
  cbv zeta. rewrite bind_assoc. apply bind_ext; intros prompt w1.
  rewrite bind_assoc. apply bind_ext; intros coroutine w2.
  rewrite bind_assoc. apply bind_ext; intros response w3.
  reflexivity.
Qed.

(** C4: driven from the same state against the same service, [_generate]
    and the awaited [_agenerate] have the same outcome: the same chat
    result (text and details) or the same exception, and the same state
    afterwards. *)
Theorem generate_agenerate_equal self (messages : list BaseMessage)
    (stop : option (list string))
    (run_manager : option CallbackManagerForLLMRun)
    (kwargs : gmap string Value) w :
  HFChatTGI._generate self messages stop run_manager kwargs w
  = await (HFChatTGI._agenerate self messages stop run_manager kwargs) w.
Proof.
  unfold await. rewrite agenerate_call_base. reflexivity.
Qed.

(** C7: the chat result made from a response holds one generation; its
    message is an assistant message whose content is the generated text of
    the response, and its generation information is the [.dict()] of the
    details of the response, whatever these are. *)
Theorem create_chat_result_verbatim self (response : Response Details) :
  length (generations (HFChatTGI._create_chat_result self response)) = 1
  /\ forall g,
       g ∈ generations (HFChatTGI._create_chat_result self response) ->
       type (message g) = AIMessage
       /\ content (message g) = generated_text response
       /\ generation_info g = Some (Details_dict (details response)).
Proof.
  split; [reflexivity|].
  intros g Hg. cbn in Hg.
  apply list_elem_of_singleton in Hg as ->. now repeat split.
Qed.

(** *** Streaming *)

Lemma generate_stream_run (client : AsyncClient) (prompt : string)
    (kwargs : gmap string Value) w :
  AsyncClient_generate_stream client prompt kwargs w
  = match kwargs !! "prompt" with
    | Some _ =>
        (Raise (TypeError
           "generate_stream() got multiple values for keyword argument 'prompt'"),
         w)
    | None =>
        (Ok {| agen_name := "AsyncClient.generate_stream";
               agen_body :=
                 (send {| req_client := client;
                          req_endpoint := GenerateStream;
                          req_prompt := prompt; req_kwargs := kwargs |} ;;;
                  lift (stream_reply client prompt kwargs)) |}, w)
    end.
Proof.
  unfold AsyncClient_generate_stream, bind. rewrite call_with_prompt_run.
  destruct (kwargs !! "prompt"); reflexivity.
Qed.

(** The statements before the loop of [_stream] always raise, and leave
    the world as it was. *)
Lemma stream_enter_raises self (messages : list BaseMessage)
    (kwargs : gmap string Value) w :
  exists e, HFChatTGI._stream_enter self messages kwargs w = (Raise e, w).
Proof.
  unfold HFChatTGI._stream_enter. cbv zeta. unfold bind at 1.
  pose proof (format_request_payload_state self messages
                (HFChatTGI.model_kwargs_or_empty self) w) as Hs.
  destruct (HFChatTGI.format_request_payload _ _ _ w) as [[prompt|e] w1];
    cbn in Hs; subst w1; [|now exists e].
  unfold bind at 1. rewrite generate_stream_run.
  destruct (kwargs !! "prompt"); now eexists.
Qed.

(** With a prompt and acceptable keywords, it is [asyncio.run] that
    raises, on the async generator object. *)
Lemma stream_enter_refused self (formatter : HFChatTGI.ContentFormatter)
    (messages : list BaseMessage) (kwargs : gmap string Value)
    (prompt : string) w :
  HFChatTGI.content_formatter self = Some formatter ->
  HFChatTGI._format_request_payload formatter messages
    (HFChatTGI.model_kwargs_or_empty self) = Ok prompt ->
  kwargs !! "prompt" = None ->
  HFChatTGI._stream_enter self messages kwargs w
  = (Raise (ValueError
       "a coroutine was expected, got <async_generator object AsyncClient.generate_stream>"),
     w).
Proof.
  intros Hf Hp Hk.
  unfold HFChatTGI._stream_enter, HFChatTGI.format_request_payload.
  cbv zeta. rewrite Hf, Hp. unfold bind at 1, lift.
  unfold bind at 1. rewrite generate_stream_run, Hk. reflexivity.
Qed.

Lemma nexts_finished (n : nat) w :
  nexts n HFChatTGI.Finished w
  = (repeat (Raise StopIteration) n, HFChatTGI.Finished, w).
Proof.
  induction n as [|n IH]; [reflexivity|].
  cbn [nexts HFChatTGI.next repeat]. now rewrite IH.
Qed.

(** *** The client behind every request *)

Lemma generate_sent self (messages : list BaseMessage)
    (stop : option (list string))
    (run_manager : option CallbackManagerForLLMRun)
    (kwargs : gmap string Value) w :
  sent_through (HFChatTGI.tgi_client self) w
    (snd (HFChatTGI._generate self messages stop run_manager kwargs w)).
Proof.
  unfold HFChatTGI._generate. rewrite bind_ret_state. apply call_base_sent.
Qed.

Lemma agenerate_sent self (messages : list BaseMessage)
    (stop : option (list string))
    (run_manager : option CallbackManagerForLLMRun)
    (kwargs : gmap string Value) w :
  sent_through (HFChatTGI.tgi_client self) w
    (snd (await (HFChatTGI._agenerate self messages stop run_manager kwargs)
            w)).
Proof.
  unfold await. rewrite agenerate_call_base, bind_ret_state.
  apply call_base_sent.
Qed.

Lemma call_sent self (messages : list BaseMessage)
    (stop : option (list string))
    (run_manager : option CallbackManagerForLLMRun)
    (kwargs : gmap string Value) w :
  sent_through (HFChatTGI.tgi_client self) w
    (snd (HFChatTGI._call self messages stop run_manager kwargs w)).
Proof.
  unfold HFChatTGI._call. rewrite bind_ret_state. apply call_base_sent.
Qed.

Lemma stream_enter_sent self (messages : list BaseMessage)
    (kwargs : gmap string Value) w :
  sent_through (HFChatTGI.tgi_client self) w
    (snd (HFChatTGI._stream_enter self messages kwargs w)).
Proof.
  destruct (stream_enter_raises self messages kwargs w) as [e ->].
  apply sent_through_refl.
Qed.

Lemma stream_loop_frame self (response : Stream) (owner : HFChatTGI.instance) :
  HFChatTGI.frame_self (snd (HFChatTGI._stream_loop self response))
  = Some owner -> owner = self.
Proof. destruct response; cbn; congruence. Qed.

(** One [next] sends through the client of the adapter of the generator,
    and the generator stays with that adapter. *)
Lemma next_sent self (g : HFChatTGI.generator) w :
  (forall owner, HFChatTGI.frame_self g = Some owner -> owner = self) ->
  sent_through (HFChatTGI.tgi_client self) w (snd (HFChatTGI.next g w))
  /\ (forall owner,
        HFChatTGI.frame_self (snd (fst (HFChatTGI.next g w))) = Some owner ->
        owner = self).
Proof.
  intros Hg. destruct g as [self' messages stop run_manager kwargs
                           |self' response|]; cbn [HFChatTGI.next].
  - rewrite <- (Hg self' eq_refl).
    pose proof (stream_enter_sent self' messages kwargs w) as Hs.
    destruct (HFChatTGI._stream_enter self' messages kwargs w)
      as [[response|e] w1]; cbn in Hs |- *.
    + split; [exact Hs|]. apply stream_loop_frame.
    + split; [exact Hs|]. discriminate.
  - rewrite <- (Hg self' eq_refl).
    split; [apply sent_through_refl|]. cbn. apply stream_loop_frame.
  - split; [apply sent_through_refl|]. discriminate.
Qed.

Lemma list_of_generator_sent self (fuel : nat) (g : HFChatTGI.generator) w :
  (forall owner, HFChatTGI.frame_self g = Some owner -> owner = self) ->
  sent_through (HFChatTGI.tgi_client self) w
    (snd (HFChatTGI.list_of_generator fuel g w)).
Proof.
  revert g w. induction fuel as [|fuel IH]; intros g w Hg;
    [apply sent_through_refl|].
  cbn [HFChatTGI.list_of_generator].
  destruct (next_sent self g w Hg) as [Hs Hg'].
  destruct (HFChatTGI.next g w) as [[[chunk|e] g1] w1]; cbn in Hs, Hg'.
  - specialize (IH g1 w1 Hg').
    destruct (HFChatTGI.list_of_generator fuel g1 w1)
      as [[[[chunks|e]|] g2] w2]; cbn in IH |- *;
      now apply sent_through_trans with w1.
  - destruct e; exact Hs.
Qed.

(** Whatever client an adapter holds, every request that [_call],
    [_generate], [_agenerate] and the generator of [_stream] add goes
    through that client, and none of them touches the environment. *)
Theorem requests_through_own_client self (messages : list BaseMessage)
    (stop : option (list string))
    (run_manager : option CallbackManagerForLLMRun)
    (kwargs : gmap string Value) w :
  sent_through (HFChatTGI.tgi_client self) w
    (snd (HFChatTGI._call self messages stop run_manager kwargs w))
  /\ sent_through (HFChatTGI.tgi_client self) w
       (snd (HFChatTGI._generate self messages stop run_manager kwargs w))
  /\ sent_through (HFChatTGI.tgi_client self) w
       (snd (await (HFChatTGI._agenerate self messages stop run_manager
                      kwargs) w))
  /\ forall fuel,
       sent_through (HFChatTGI.tgi_client self) w
         (snd (HFChatTGI.list_of_generator fuel
                 (HFChatTGI._stream self messages stop run_manager kwargs)
                 w)).
Proof.
  split; [apply call_sent|]. split; [apply generate_sent|].
  split; [apply agenerate_sent|].
  intros fuel. apply list_of_generator_sent. cbn. congruence.
Qed.

(** C8: an adapter cannot be constructed without a client.  With
    [tgi_client] left out or given as [None], construction raises the
    validation error of the field and leaves the world as it was: the
    branch of [validate_client] that reads [TGI_URL] is not reached, also
    when the variable is set. *)
Theorem construction_needs_client
    (given_client_kwargs : HFChatTGI.Supplied ClientKwargs)
    (given_content_formatter : option HFChatTGI.ContentFormatter)
    (given_model_kwargs : option (gmap string Value)) w :
  (exists text,
     HFChatTGI.construct given_client_kwargs HFChatTGI.Missing
       given_content_formatter given_model_kwargs w
     = (Raise (OtherError "ValidationError" text), w))
  /\ (exists text,
        HFChatTGI.construct given_client_kwargs HFChatTGI.GivenNone
          given_content_formatter given_model_kwargs w
        = (Raise (OtherError "ValidationError" text), w)).
Proof.
  split; eexists; unfold HFChatTGI.construct; cbv zeta;
    destruct given_client_kwargs; reflexivity.
Qed.

End adapter_properties.

(** C5: on a service that would stream the fragments "Hel" and "lo" and
    then complete, the generator of [_stream] yields neither: its first
    [next] raises the [ValueError] of [asyncio.run], which is handed an
    async generator object, every later [next] raises [StopIteration],
    and no request has been sent. *)
Theorem stream_yields_no_fragment :
  @stream_reply Sample.service (AsyncClient_of_url "http://127.0.0.1:8080")
    Sample.prompt ∅
  = Ok (Stream_of_list ["Hel"; "lo"])
  /\ nexts 3
       (HFChatTGI._stream (Sample.adapter "http://127.0.0.1:8080")
          Sample.dialog None None ∅) (Sample.world ∅)
     = ([Raise (ValueError
           "a coroutine was expected, got <async_generator object AsyncClient.generate_stream>");
         Raise StopIteration; Raise StopIteration],
        HFChatTGI.Finished, Sample.world ∅)
  /\ HFChatTGI.list_of_generator 3
       (HFChatTGI._stream (Sample.adapter "http://127.0.0.1:8080")
          Sample.dialog None None ∅) (Sample.world ∅)
     = (Some (Raise (ValueError
          "a coroutine was expected, got <async_generator object AsyncClient.generate_stream>")),
        HFChatTGI.Finished, Sample.world ∅).
Proof. repeat split; reflexivity. Qed.

(** Construction with nothing but [TGI_URL] set. *)
Example construction_with_environment_only :
  HFChatTGI.construct HFChatTGI.Missing HFChatTGI.Missing
    (Some Sample.formatter) None
    (Sample.world {[ "TGI_URL" := "http://127.0.0.1:8080" ]})
  = (Raise (OtherError "ValidationError"
       "client_kwargs: field required; tgi_client: field required"),
     Sample.world {[ "TGI_URL" := "http://127.0.0.1:8080" ]}).
Proof. reflexivity. Qed.

(** C3: with a base URL given in [client_kwargs] and no client,
    [validate_client] does not take it: it raises when [TGI_URL] is not
    set, and builds the client from [TGI_URL] when it is. *)
Theorem validate_client_skips_client_kwargs :
  HFChatTGI.validate_client None
    {[ "client_kwargs" :=
         HFChatTGI.FClientKwargs (ClientKwargs_of_url "http://explicit:8080") ]}
    (Sample.world ∅)
  = (Raise (ValueError HFChatTGI.no_url_message), Sample.world ∅)
  /\ fst (HFChatTGI.validate_client None
            {[ "client_kwargs" :=
                 HFChatTGI.FClientKwargs
                   (ClientKwargs_of_url "http://explicit:8080") ]}
            (Sample.world {[ "TGI_URL" := "http://env:8080" ]}))
     = Ok (Some (AsyncClient_of_url "http://env:8080")).
Proof. split; reflexivity. Qed.

(** On the sample service [_generate] returns the text and the details of
    the reply. *)
Example generate_hello :
  fst (HFChatTGI._generate (Sample.adapter "http://127.0.0.1:8080")
         Sample.dialog None None ∅ (Sample.world ∅))
  = Ok {| generations :=
            [ {| message := Message AIMessage "Hello";
                 generation_info :=
                   Some {[ "finish_reason" := "eos_token" ]} |} ] |}.
Proof. reflexivity. Qed.

Lemma validate_client_nothing_witness :
  HFChatTGI.values_get ∅ "tgi_client_parameters" = HFChatTGI.FNone
  /\ HFChatTGI.validate_client None ∅ (Sample.world ∅)
     = (Raise (ValueError HFChatTGI.no_url_message), Sample.world ∅).
Proof.
  split; [reflexivity|].
  apply (validate_client_nothing (H := Sample.service) ∅ (Sample.world ∅));
    reflexivity.
Defined.

(** ** More on the formatters *)

Lemma string_app_assoc (a b c : string) : (a +:+ b) +:+ c = a +:+ b +:+ c.
Proof.
  induction a as [|ch a IH]; [reflexivity|].
  change (String ch ((a +:+ b) +:+ c) = String ch (a +:+ b +:+ c)).
  now rewrite IH.
Qed.

Lemma message2string_supported {S} cls (message : BaseMessage) (s : S) :
  supported message = true ->
  exists part, HFLlamaFormatter.message2string cls message s = (Ok part, s).
Proof.
  destruct message as [c text]. destruct c; try discriminate; intros _;
    eexists; reflexivity.
Qed.

Lemma comprehension_cons_raise {S A B} (f : A -> M S B) (x : A) (xs : list A)
    (s : S) (e : Exception) (s1 : S) :
  f x s = (Raise e, s1) ->
  list_comprehension f (x :: xs) s = (Raise e, s1).
Proof. intros Hx. cbn [list_comprehension]. unfold bind. now rewrite Hx. Qed.

Lemma comprehension_supported {S} cls (dialog : list BaseMessage) (s : S) :
  (exists parts,
     list_comprehension (HFLlamaFormatter.message2string cls) dialog s
     = (Ok parts, s))
  <-> Forall (fun message => supported message = true) dialog.
Proof.
  induction dialog as [|m dialog IH].
  - split; [constructor|]. intros _. now exists [].
  - split.
    + intros [parts Hrun]. destruct (supported m) eqn:Hm.
      * constructor; [exact Hm|]. apply IH.
        destruct (message2string_supported cls m s Hm) as [part Hp].
        rewrite (comprehension_cons_ok _ _ _ _ _ _ Hp) in Hrun.
        destruct (list_comprehension _ dialog s) as [[ps|e] s'];
          [|discriminate].
        injection Hrun as _ ->. now exists ps.
      * rewrite (comprehension_cons_raise _ _ _ _ _ _
                   (message2string_unsupported cls m s Hm)) in Hrun.
        discriminate.
    + intros Hall. inversion Hall as [|? ? Hm Hrest]; subst.
      destruct (message2string_supported cls m s Hm) as [part Hp].
      destruct (proj2 IH Hrest) as [parts Hparts].
      exists (part :: parts).
      now rewrite (comprehension_cons_ok _ _ _ _ _ _ Hp), Hparts.
Qed.

(** [dialog2string] returns a prompt exactly when every message of the
    dialog is a Human, an Assistant or a System message, whatever tokens
    the class holds and whatever the join string. *)
Theorem dialog2string_ok_iff_supported {S} cls (dialog : list BaseMessage)
    (join_char : string) (s : S) :
  (exists prompt,
     HFLlamaFormatter.dialog2string cls dialog join_char s = (Ok prompt, s))
  <-> Forall (fun message => supported message = true) dialog.
Proof.
  rewrite <- (comprehension_supported cls dialog s).
  rewrite dialog2string_unfold. split.
  - intros [prompt Hrun].
    destruct (list_comprehension _ dialog s) as [[parts|e] s'];
      [|discriminate].
    injection Hrun as _ ->. now exists parts.
  - intros [parts ->]. now eexists.
Qed.

Lemma comprehension_app {S A B} (f : A -> M S B) (xs ys : list A)
    (s : S) (bs cs : list B) :
  (forall x t, snd (f x t) = t) ->
  list_comprehension f xs s = (Ok bs, s) ->
  list_comprehension f ys s = (Ok cs, s) ->
  list_comprehension f (xs ++ ys) s = (Ok (bs ++ cs)%list, s).
Proof.
  intros Hf. revert bs. induction xs as [|x xs IH]; intros bs Hxs Hys.
  - injection Hxs as <-. exact Hys.
  - cbn [app]. pose proof (Hf x s) as Hx.
    destruct (f x s) as [[b|e] s1] eqn:Hfx; cbn in Hx; subst s1.
    + rewrite (comprehension_cons_ok f x xs s b s Hfx) in Hxs.
      rewrite (comprehension_cons_ok f x (xs ++ ys) s b s Hfx).
      destruct (list_comprehension f xs s) as [[bs'|e] s1] eqn:Hrest;
        [|discriminate].
      injection Hxs as <- ->.
      now rewrite (IH bs' eq_refl Hys).
    + rewrite (comprehension_cons_raise _ _ _ _ _ _ Hfx) in Hxs.
      discriminate.
Qed.

Lemma comprehension_length {S A B} (f : A -> M S B) (xs : list A)
    (s s' : S) (bs : list B) :
  list_comprehension f xs s = (Ok bs, s') -> length bs = length xs.
Proof.
  revert s bs. induction xs as [|x xs IH]; intros s bs Hrun.
  - now injection Hrun as <- _.
  - cbn [list_comprehension] in Hrun. unfold bind in Hrun.
    destruct (f x s) as [[b|e] s1]; [|discriminate].
    destruct (list_comprehension f xs s1) as [[bs'|e] s2] eqn:Hrest;
      [|discriminate].
    injection Hrun as <- <-. cbn. now rewrite (IH _ _ Hrest).
Qed.

Lemma join_app (sep : string) (bs cs : list string) :
  bs <> [] -> cs <> [] ->
  join sep (bs ++ cs) = join sep bs +:+ sep +:+ join sep cs.
Proof.
  unfold join. intros Hbs Hcs.
  induction bs as [|b [|b' bs] IH]; [congruence| |].
  - destruct cs as [|c cs]; [congruence|]. reflexivity.
  - change (b +:+ sep +:+ String.concat sep ((b' :: bs) ++ cs)
            = (b +:+ sep +:+ String.concat sep (b' :: bs)) +:+ sep
              +:+ String.concat sep cs).
    rewrite IH by discriminate. now rewrite !string_app_assoc.
Qed.

(** The prompt of two dialogs put end to end is the prompt of the first,
    the join string and the prompt of the second, when neither dialog is
    empty. *)
Theorem dialog2string_app {S} cls (first second : list BaseMessage)
    (join_char : string) (s : S) (p1 p2 : string) :
  first <> [] -> second <> [] ->
  HFLlamaFormatter.dialog2string cls first join_char s = (Ok p1, s) ->
  HFLlamaFormatter.dialog2string cls second join_char s = (Ok p2, s) ->
  HFLlamaFormatter.dialog2string cls (first ++ second) join_char s
  = (Ok (p1 +:+ join_char +:+ p2), s).
Proof.
  intros Hn1 Hn2. rewrite !dialog2string_unfold.
  destruct (list_comprehension _ first s) as [[bs|e] s1] eqn:H1;
    [|discriminate].
  destruct (list_comprehension _ second s) as [[cs|e] s2] eqn:H2;
    [|discriminate].
  intros Hp1 Hp2. injection Hp1 as <- ->. injection Hp2 as <- ->.
  rewrite (comprehension_app _ _ _ _ _ _ (message2string_state cls) H1 H2).
  rewrite join_app; [reflexivity| |].
  - intros ->. apply comprehension_length in H1. now destruct first.
  - intros ->. apply comprehension_length in H2. now destruct second.
Qed.

Lemma dialog2string_app_witness :
  HFLlamaFormatter.dialog2string HFLlamaFormatter.cls
    ([Message SystemMessage "a"] ++ [Message HumanMessage "b"])%list nl tt
  = (Ok (("<s><<SYS>>" +:+ nl +:+ "a" +:+ nl +:+ "<</SYS>>" +:+ nl +:+ nl
            +:+ "</s>") +:+ nl +:+ "<s>[INST]b[/INST]"), tt).
Proof.
  apply (dialog2string_app HFLlamaFormatter.cls
           [Message SystemMessage "a"] [Message HumanMessage "b"] nl tt).
  - discriminate.
  - discriminate.
  - reflexivity.
  - reflexivity.
Defined.

(** The text of a message goes into the prompt as it is: two Assistant
    messages and the single Assistant message whose text spells out the
    end-of-sequence token and the join string between them give the same
    prompt, so a prompt does not determine its dialog. *)
Theorem dialog2string_unescaped {S} (a b join_char : string) (s : S) :
  HFLlamaFormatter.dialog2string HFLlamaFormatter.cls
    [Message AIMessage a; Message AIMessage b] join_char s
  = HFLlamaFormatter.dialog2string HFLlamaFormatter.cls
      [Message AIMessage (a +:+ "</s>" +:+ join_char +:+ b)] join_char s.
Proof.
  transitivity
    (@Ok string ((a +:+ "</s>") +:+ join_char +:+ b +:+ "</s>"), s);
    [reflexivity|].
  transitivity
    (@Ok string ((a +:+ "</s>" +:+ join_char +:+ b) +:+ "</s>"), s);
    [|reflexivity].
  now rewrite !string_app_assoc.
Qed.

(** ** More on [Llama2Chat] *)

Lemma llama2chat_comprehension_assistant {S} (self : Llama2Chat.instance)
    (texts : list string) (s : S) :
  list_comprehension (Llama2Chat.message2string self)
    (map (Message AIMessage) texts) s
  = (Ok (map (fun text => text +:+ Llama2Chat.HF_EOS_TOKEN self) texts), s).
Proof.
  induction texts as [|text texts IH]; [reflexivity|].
  cbn [map].
  rewrite (comprehension_cons_ok (Llama2Chat.message2string self)
             (Message AIMessage text) _ s
             (text +:+ Llama2Chat.HF_EOS_TOKEN self) s eq_refl).
  now rewrite IH.
Qed.

Lemma llama2chat_comprehension_bos {S} (self : Llama2Chat.instance)
    (texts : list string) (message : BaseMessage)
    (rest : list BaseMessage) (s : S) :
  type message = HumanMessage \/ type message = SystemMessage ->
  list_comprehension (Llama2Chat.message2string self)
    (map (Message AIMessage) texts ++ message :: rest) s
  = (Raise (AttributeError
              "'Llama2Chat' object has no attribute 'HF_BOS_TOKEN'"), s).
Proof.
  intros Hm. induction texts as [|text texts IH].
  - cbn [map app].
    apply comprehension_cons_raise.
    now apply llama2chat_message2string_bos.
  - cbn [map app].
    rewrite (comprehension_cons_ok (Llama2Chat.message2string self)
               (Message AIMessage text) _ s
               (text +:+ Llama2Chat.HF_EOS_TOKEN self) s eq_refl).
    now rewrite IH.
Qed.

Lemma llama2chat_preprocess_unfold {S} (self : Llama2Chat.instance)
    (messages : list BaseMessage) (s : S) :
  Llama2Chat._preprocess self messages s
  = match list_comprehension (Llama2Chat.message2string self) messages s with
    | (Ok parts, s') => (Ok (join (Llama2Chat.join_char self) parts), s')
    | (Raise e, s') => (Raise e, s')
    end.
Proof. reflexivity. Qed.

(** On a dialog of Assistant messages alone [_preprocess] works, for
    every instance: it returns the texts, each followed by the
    end-of-sequence token of the instance, separated by its [join_char]. *)
Theorem llama2chat_preprocess_assistant {S} (self : Llama2Chat.instance)
    (texts : list string) (s : S) :
  Llama2Chat._preprocess self (map (Message AIMessage) texts) s
  = (Ok (join (Llama2Chat.join_char self)
           (map (fun text => text +:+ Llama2Chat.HF_EOS_TOKEN self) texts)),
     s).
Proof.
  rewrite llama2chat_preprocess_unfold.
  now rewrite llama2chat_comprehension_assistant.
Qed.

(** A dialog whose first message that is not an Assistant message is a
    Human or a System message makes [_preprocess] raise the
    [AttributeError] on [HF_BOS_TOKEN], for every instance and whatever
    follows that message. *)
Theorem llama2chat_preprocess_bos {S} (self : Llama2Chat.instance)
    (texts : list string) (message : BaseMessage)
    (rest : list BaseMessage) (s : S) :
  type message = HumanMessage \/ type message = SystemMessage ->
  Llama2Chat._preprocess self
    (map (Message AIMessage) texts ++ message :: rest) s
  = (Raise (AttributeError
              "'Llama2Chat' object has no attribute 'HF_BOS_TOKEN'"), s).
Proof.
  intros Hm. rewrite llama2chat_preprocess_unfold.
  now rewrite llama2chat_comprehension_bos.
Qed.

Lemma llama2chat_preprocess_bos_witness :
  Llama2Chat._preprocess Llama2Chat.default
    (map (Message AIMessage) ["hello"]
       ++ Message HumanMessage "hi" :: [Message AIMessage "bye"])%list tt
  = (Raise (AttributeError
              "'Llama2Chat' object has no attribute 'HF_BOS_TOKEN'"), tt).
Proof.
  apply (llama2chat_preprocess_bos Llama2Chat.default ["hello"]
           (Message HumanMessage "hi") [Message AIMessage "bye"] tt).
  left. reflexivity.
Defined.

Section llama2chat_generate_properties.

Context `{Service} {S : Type}.

Implicit Types (self : Llama2Chat.instance)
  (self_postprocess : string -> M S ChatResult)
  (self_llm : BaseHuggingFaceTextGenChat.LLM S) (s : S).

(** The stop sequences the model is called with. *)
Lemma llama2chat_stop_tokens self (stop : option (list string)) s :
  match stop with
  | Some (token :: tokens) => ret (token :: tokens)
  | _ => bind (Llama2Chat.getattr self "HF_EOS_TOKEN") (fun eos => ret [eos])
  end s
  = (Ok match stop with
        | Some (token :: tokens) => token :: tokens
        | _ => [Llama2Chat.HF_EOS_TOKEN self]
        end, s).
Proof. destruct stop as [[|token tokens]|]; reflexivity. Qed.

(** On a dialog of Assistant messages, with no [prompt] among the
    keywords, [_generate] calls the model once, with the prompt of the
    dialog, with the stop sequences of the caller, or the end-of-sequence
    token alone when the caller gives none or an empty list, and with the
    run manager and the keywords as they came; what the model returns
    goes to the [_postprocess] of the object, what it raises is raised. *)
Theorem llama2chat_generate_calls_llm self self_postprocess self_llm
    (texts : list string) (stop : option (list string))
    (run_manager : option CallbackManagerForLLMRun)
    (kwargs : gmap string Value) s :
  kwargs !! "prompt" = None ->
  Llama2Chat_generate self self_postprocess self_llm
    (map (Message AIMessage) texts) stop run_manager kwargs s
  = match
      BaseHuggingFaceTextGenChat.llm_call self_llm
        (join (Llama2Chat.join_char self)
           (map (fun text => text +:+ Llama2Chat.HF_EOS_TOKEN self) texts))
        match stop with
        | Some (token :: tokens) => token :: tokens
        | _ => [Llama2Chat.HF_EOS_TOKEN self]
        end
        run_manager kwargs s
    with
    | (Ok model_output, s') => self_postprocess model_output s'
    | (Raise e, s') => (Raise e, s')
    end.
Proof.
  intros Hk.
  unfold Llama2Chat_generate, BaseHuggingFaceTextGenChat._generate.
  assert (Hpre :
    Llama2Chat._preprocess self (map (Message AIMessage) texts) s
    = (Ok (join (Llama2Chat.join_char self)
             (map (fun text => text +:+ Llama2Chat.HF_EOS_TOKEN self) texts)),
       s)).
  { rewrite llama2chat_preprocess_unfold.
    now rewrite llama2chat_comprehension_assistant. }
  rewrite (bind_ok _ _ _ _ _ Hpre).
  rewrite (bind_ok _ _ _ _ _ (llama2chat_stop_tokens self stop s)).
  rewrite Hk. unfold bind.
  destruct (BaseHuggingFaceTextGenChat.llm_call _ _ _ _ _ s) as [[out|e] s'];
    reflexivity.
Qed.

(** A Human or a System message before any other message that is not an
    Assistant message makes [Llama2Chat._generate] raise the
    [AttributeError] on [HF_BOS_TOKEN] before the model is called: the
    outcome is the same for every model and every [_postprocess], and
    the state is untouched. *)
Theorem llama2chat_generate_bos self self_postprocess self_llm
    (texts : list string)
    (message : BaseMessage) (rest : list BaseMessage)
    (stop : option (list string))
    (run_manager : option CallbackManagerForLLMRun)
    (kwargs : gmap string Value) s :
  type message = HumanMessage \/ type message = SystemMessage ->
  Llama2Chat_generate self self_postprocess self_llm
    (map (Message AIMessage) texts ++ message :: rest) stop run_manager
    kwargs s
  = (Raise (AttributeError
              "'Llama2Chat' object has no attribute 'HF_BOS_TOKEN'"), s).
Proof.
  intros Hm.
  unfold Llama2Chat_generate, BaseHuggingFaceTextGenChat._generate.
  assert (Hpre :
    Llama2Chat._preprocess self
      (map (Message AIMessage) texts ++ message :: rest) s
    = (Raise (AttributeError
                "'Llama2Chat' object has no attribute 'HF_BOS_TOKEN'"), s)).
  { rewrite llama2chat_preprocess_unfold.
    now rewrite llama2chat_comprehension_bos. }
  now rewrite (bind_raise _ _ _ _ _ Hpre).
Qed.

End llama2chat_generate_properties.

(** ** More on the adapter *)

Section adapter_requests.

Context `{Service}.

Implicit Types (w : World) (self : HFChatTGI.instance).

(** What [_call_base] does once the formatter has given a prompt and the
    keywords hold no [prompt]: one request, and the answer of the service. *)
Lemma call_base_run self (formatter : HFChatTGI.ContentFormatter)
    (messages : list BaseMessage) (stop : option (list string))
    (run_manager : option CallbackManagerForLLMRun)
    (kwargs : gmap string Value) (prompt : string) w :
  HFChatTGI.content_formatter self = Some formatter ->
  HFChatTGI._format_request_payload formatter messages
    (HFChatTGI.model_kwargs_or_empty self) = Ok prompt ->
  kwargs !! "prompt" = None ->
  HFChatTGI._call_base self messages stop run_manager kwargs w
  = (reply (HFChatTGI.tgi_client self) prompt kwargs,
     with_request w
       {| req_client := HFChatTGI.tgi_client self; req_endpoint := Generate;
          req_prompt := prompt; req_kwargs := kwargs |}).
Proof.
  intros Hf Hp Hk.
  unfold HFChatTGI._call_base, HFChatTGI.format_request_payload.
  cbv zeta. rewrite Hf, Hp. unfold bind at 1, lift.
  unfold bind at 1, AsyncClient_generate.
  rewrite call_with_prompt_run, Hk.
  unfold asyncio_run, bind, send, modify, lift, ret, with_request.
  destruct (reply _ prompt kwargs); reflexivity.
Qed.

(** A successful [_generate] has sent exactly one request: to the
    generate endpoint, through the client of the adapter, with the prompt
    the content formatter made of the messages and of [model_kwargs], and
    with the keywords of the caller as they came; its result is made of
    the reply to that request.  Environment and log are as before. *)
Theorem generate_returns_reply self (formatter : HFChatTGI.ContentFormatter)
    (messages : list BaseMessage) (stop : option (list string))
    (run_manager : option CallbackManagerForLLMRun)
    (kwargs : gmap string Value) (prompt : string)
    (response : Response Details) w :
  HFChatTGI.content_formatter self = Some formatter ->
  HFChatTGI._format_request_payload formatter messages
    (HFChatTGI.model_kwargs_or_empty self) = Ok prompt ->
  kwargs !! "prompt" = None ->
  reply (HFChatTGI.tgi_client self) prompt kwargs = Ok response ->
  HFChatTGI._generate self messages stop run_manager kwargs w
  = (Ok (HFChatTGI._create_chat_result self response),
     with_request w
       {| req_client := HFChatTGI.tgi_client self; req_endpoint := Generate;
          req_prompt := prompt; req_kwargs := kwargs |}).
Proof.
  intros Hf Hp Hk Hr. unfold HFChatTGI._generate, bind.
  rewrite (call_base_run self formatter messages stop run_manager kwargs
             prompt w Hf Hp Hk), Hr.
  reflexivity.
Qed.

(** A failure of the service comes out of [_call], [_generate] and
    [_agenerate] as the exception the service raised, after exactly one
    request: nothing is retried, wrapped or swallowed. *)
Theorem generate_surfaces_failure self
    (formatter : HFChatTGI.ContentFormatter)
    (messages : list BaseMessage) (stop : option (list string))
    (run_manager : option CallbackManagerForLLMRun)
    (kwargs : gmap string Value) (prompt : string) (e : Exception) w :
  HFChatTGI.content_formatter self = Some formatter ->
  HFChatTGI._format_request_payload formatter messages
    (HFChatTGI.model_kwargs_or_empty self) = Ok prompt ->
  kwargs !! "prompt" = None ->
  reply (HFChatTGI.tgi_client self) prompt kwargs = Raise e ->
  let w' :=
    with_request w
      {| req_client := HFChatTGI.tgi_client self; req_endpoint := Generate;
         req_prompt := prompt; req_kwargs := kwargs |} in
  HFChatTGI._call self messages stop run_manager kwargs w = (Raise e, w')
  /\ HFChatTGI._generate self messages stop run_manager kwargs w
     = (Raise e, w')
  /\ await (HFChatTGI._agenerate self messages stop run_manager kwargs) w
     = (Raise e, w').
Proof.
  intros Hf Hp Hk Hr w'.
  pose proof (call_base_run self formatter messages stop run_manager kwargs
                prompt w Hf Hp Hk) as Hrun.
  rewrite Hr in Hrun. fold w' in Hrun.
  split; [|split].
  - unfold HFChatTGI._call, bind. now rewrite Hrun.
  - unfold HFChatTGI._generate, bind. now rewrite Hrun.
  - unfold await. rewrite agenerate_call_base. unfold bind. now rewrite Hrun.
Qed.

(** An adapter left with its default [content_formatter], [None], cannot
    generate: [_call], [_generate], [_agenerate] and the first [next] of
    [_stream] raise [AttributeError] before any request is sent. *)
Theorem generate_without_formatter self (messages : list BaseMessage)
    (stop : option (list string))
    (run_manager : option CallbackManagerForLLMRun)
    (kwargs : gmap string Value) w :
  HFChatTGI.content_formatter self = None ->
  let e :=
    AttributeError
      "'NoneType' object has no attribute '_format_request_payload'" in
  HFChatTGI._call self messages stop run_manager kwargs w = (Raise e, w)
  /\ HFChatTGI._generate self messages stop run_manager kwargs w
     = (Raise e, w)
  /\ await (HFChatTGI._agenerate self messages stop run_manager kwargs) w
     = (Raise e, w)
  /\ HFChatTGI.next
       (HFChatTGI._stream self messages stop run_manager kwargs) w
     = (Raise e, HFChatTGI.Finished, w).
Proof.
  intros Hf e.
  assert (Hbase :
    HFChatTGI._call_base self messages stop run_manager kwargs w
    = (Raise e, w)).
  { unfold HFChatTGI._call_base, HFChatTGI.format_request_payload.
    cbv zeta. now rewrite Hf. }
  split; [|split; [|split]].
  - unfold HFChatTGI._call, bind. now rewrite Hbase.
  - unfold HFChatTGI._generate, bind. now rewrite Hbase.
  - unfold await. rewrite agenerate_call_base. unfold bind. now rewrite Hbase.
  - unfold HFChatTGI._stream, HFChatTGI.next, HFChatTGI._stream_enter,
      HFChatTGI.format_request_payload.
    cbv zeta. now rewrite Hf.
Qed.

(** A [prompt] among the keywords of the caller is refused with a
    [TypeError] before any request is sent, by the single-shot calls and
    by the first [next] of [_stream]. *)
Theorem generate_refuses_prompt_keyword self
    (formatter : HFChatTGI.ContentFormatter)
    (messages : list BaseMessage) (stop : option (list string))
    (run_manager : option CallbackManagerForLLMRun)
    (kwargs : gmap string Value) (prompt : string) (value : Value) w :
  HFChatTGI.content_formatter self = Some formatter ->
  HFChatTGI._format_request_payload formatter messages
    (HFChatTGI.model_kwargs_or_empty self) = Ok prompt ->
  kwargs !! "prompt" = Some value ->
  HFChatTGI._generate self messages stop run_manager kwargs w
  = (Raise (TypeError
       "generate() got multiple values for keyword argument 'prompt'"), w)
  /\ await (HFChatTGI._agenerate self messages stop run_manager kwargs) w
     = (Raise (TypeError
          "generate() got multiple values for keyword argument 'prompt'"), w)
  /\ HFChatTGI.next
       (HFChatTGI._stream self messages stop run_manager kwargs) w
     = (Raise (TypeError
          "generate_stream() got multiple values for keyword argument 'prompt'"),
        HFChatTGI.Finished, w).
Proof.
  intros Hf Hp Hk.
  assert (Hbase :
    HFChatTGI._call_base self messages stop run_manager kwargs w
    = (Raise (TypeError
         "generate() got multiple values for keyword argument 'prompt'"), w)).
  { unfold HFChatTGI._call_base, HFChatTGI.format_request_payload.
    cbv zeta. rewrite Hf, Hp. unfold bind at 1, lift.
    unfold bind at 1, AsyncClient_generate.
    now rewrite call_with_prompt_run, Hk. }
  split; [|split].
  - unfold HFChatTGI._generate, bind. now rewrite Hbase.
  - unfold await. rewrite agenerate_call_base. unfold bind. now rewrite Hbase.
  - unfold HFChatTGI._stream, HFChatTGI.next, HFChatTGI._stream_enter,
      HFChatTGI.format_request_payload.
    cbv zeta. rewrite Hf, Hp. unfold bind at 1, lift.
    unfold bind at 1. now rewrite generate_stream_run, Hk.
Qed.

(** The stop sequences and the run manager of the caller have no part in
    a generation: [_generate], [_agenerate] and [_call] send the same
    request and return the same outcome whatever they are. *)
Theorem generate_ignores_stop self (messages : list BaseMessage)
    (stop stop' : option (list string))
    (run_manager run_manager' : option CallbackManagerForLLMRun)
    (kwargs : gmap string Value) w :
  HFChatTGI._generate self messages stop run_manager kwargs w
  = HFChatTGI._generate self messages stop' run_manager' kwargs w
  /\ await (HFChatTGI._agenerate self messages stop run_manager kwargs) w
     = await (HFChatTGI._agenerate self messages stop' run_manager' kwargs) w
  /\ HFChatTGI._call self messages stop run_manager kwargs w
     = HFChatTGI._call self messages stop' run_manager' kwargs w
  /\ forall n,
       fst (fst (nexts n
                   (HFChatTGI._stream self messages stop run_manager kwargs)
                   w))
       = fst (fst (nexts n
                     (HFChatTGI._stream self messages stop' run_manager'
                        kwargs) w))
       /\ snd (nexts n
                 (HFChatTGI._stream self messages stop run_manager kwargs) w)
          = snd (nexts n
                   (HFChatTGI._stream self messages stop' run_manager' kwargs)
                   w).
Proof.
  repeat split; try reflexivity; destruct n; reflexivity.
Qed.

End adapter_requests.

Section adapter_streaming.

Context `{Service}.

Implicit Types (w : World) (self : HFChatTGI.instance).

(** The generator of [_stream] never yields: whatever the adapter, the
    messages, the keywords and the service, its first [next] raises, it
    is finished from then on, so that every later [next] raises
    [StopIteration], and the world is as before: no request is sent. *)
Theorem stream_never_yields self (messages : list BaseMessage)
    (stop : option (list string))
    (run_manager : option CallbackManagerForLLMRun)
    (kwargs : gmap string Value) (more : nat) w :
  exists e,
    nexts (S more) (HFChatTGI._stream self messages stop run_manager kwargs) w
    = (Raise e :: repeat (Raise StopIteration) more, HFChatTGI.Finished, w).
Proof.
  destruct (stream_enter_raises self messages kwargs w) as [e He].
  exists e. unfold HFChatTGI._stream. cbn [nexts HFChatTGI.next].
  rewrite He. now rewrite nexts_finished.
Qed.

(** When the content formatter returns a prompt and the keywords hold no
    [prompt], what the first [next] raises is the [ValueError] of
    [asyncio.run], which refuses the async generator object that
    [generate_stream] returns; this does not depend on what the service
    would stream, and [list] of the generator raises the same. *)
Theorem stream_refused_by_asyncio_run self
    (formatter : HFChatTGI.ContentFormatter)
    (messages : list BaseMessage) (stop : option (list string))
    (run_manager : option CallbackManagerForLLMRun)
    (kwargs : gmap string Value) (prompt : string) (more : nat) w :
  HFChatTGI.content_formatter self = Some formatter ->
  HFChatTGI._format_request_payload formatter messages
    (HFChatTGI.model_kwargs_or_empty self) = Ok prompt ->
  kwargs !! "prompt" = None ->
  nexts (S more) (HFChatTGI._stream self messages stop run_manager kwargs) w
  = (Raise (ValueError
       "a coroutine was expected, got <async_generator object AsyncClient.generate_stream>")
       :: repeat (Raise StopIteration) more,
     HFChatTGI.Finished, w)
  /\ HFChatTGI.list_of_generator (S more)
       (HFChatTGI._stream self messages stop run_manager kwargs) w
     = (Some (Raise (ValueError
          "a coroutine was expected, got <async_generator object AsyncClient.generate_stream>")),
        HFChatTGI.Finished, w).
Proof.
  intros Hf Hp Hk.
  pose proof (stream_enter_refused self formatter messages kwargs prompt w
                Hf Hp Hk) as He.
  unfold HFChatTGI._stream. split.
  - cbn [nexts HFChatTGI.next]. rewrite He. now rewrite nexts_finished.
  - cbn [HFChatTGI.list_of_generator HFChatTGI.next]. now rewrite He.
Qed.

(** [_call] returns the text that [_generate] wraps: when [_generate]
    returns a result, its one generation carries the string [_call]
    returns, and when it raises, [_call] raises the same; both leave the
    same world. *)
Theorem call_text_of_generate self (messages : list BaseMessage)
    (stop : option (list string))
    (run_manager : option CallbackManagerForLLMRun)
    (kwargs : gmap string Value) w :
  match HFChatTGI._generate self messages stop run_manager kwargs w with
  | (Ok result, w') =>
      exists g,
        generations result = [g]
        /\ HFChatTGI._call self messages stop run_manager kwargs w
           = (Ok (content (message g)), w')
  | (Raise e, w') =>
      HFChatTGI._call self messages stop run_manager kwargs w = (Raise e, w')
  end.
Proof.
  unfold HFChatTGI._generate, HFChatTGI._call, bind.
  destruct (HFChatTGI._call_base self messages stop run_manager kwargs w)
    as [[response|e] w']; [|reflexivity].
  cbn. eexists. split; reflexivity.
Qed.

(** Whatever it is given, [validate_client] leaves the environment as it
    is and sends no request, and when it returns, it returns a client,
    never [None]. *)
Theorem validate_client_result (tgi_client : option AsyncClient)
    (values : gmap string HFChatTGI.FieldValue) w :
  environ (snd (HFChatTGI.validate_client tgi_client values w)) = environ w
  /\ requests (snd (HFChatTGI.validate_client tgi_client values w))
     = requests w
  /\ forall result,
       fst (HFChatTGI.validate_client tgi_client values w) = Ok result ->
       exists client, result = Some client.
Proof.
  destruct tgi_client as [client|].
  - repeat split. intros result Hr. injection Hr as <-. now exists client.
  - unfold HFChatTGI.validate_client.
    destruct (HFChatTGI.values_get values "tgi_client_parameters")
      as [|k|type_name].
    + unfold bind, HFChatTGI._get_client, os_getenv, gets, bind. cbn.
      destruct (environ w !! "TGI_URL") as [url|]; cbn.
      * repeat split. intros result Hr. injection Hr as <-. now eexists.
      * repeat split. discriminate.
    + cbn. repeat split. intros result Hr. injection Hr as <-. now eexists.
    + cbn. repeat split. discriminate.
Qed.

End adapter_streaming.

(** ** The properties above, on the sample objects *)

Lemma llama2chat_generate_calls_llm_witness :
  Llama2Chat_generate (H := Sample.service) Llama2Chat.default
    SampleLLM.postprocess SampleLLM.echo
    (map (Message AIMessage) ["hello"; "bye"]) None None ∅ 0
  = (Ok {| generations :=
             [ {| message :=
                    Message AIMessage ("hello</s>" +:+ nl +:+ "bye</s>");
                  generation_info := None |} ] |}, 1).
Proof.
  rewrite (llama2chat_generate_calls_llm (H := Sample.service)
             Llama2Chat.default SampleLLM.postprocess SampleLLM.echo
             ["hello"; "bye"] None None ∅ 0);
    reflexivity.
Defined.

Lemma llama2chat_generate_bos_witness :
  Llama2Chat_generate (H := Sample.service) Llama2Chat.default
    SampleLLM.postprocess SampleLLM.echo
    (map (Message AIMessage) ["hello"]
       ++ Message SystemMessage "be kind" :: [])%list None None ∅ 0
  = (Raise (AttributeError
              "'Llama2Chat' object has no attribute 'HF_BOS_TOKEN'"), 0).
Proof.
  apply (llama2chat_generate_bos (H := Sample.service) Llama2Chat.default
           SampleLLM.postprocess SampleLLM.echo ["hello"] (Message SystemMessage "be kind") []
           None None ∅ 0).
  right. reflexivity.
Defined.

Lemma generate_returns_reply_witness :
  HFChatTGI._generate (Sample.adapter "http://127.0.0.1:8080") Sample.dialog
    None None ∅ (Sample.world ∅)
  = (Ok (HFChatTGI._create_chat_result
           (Sample.adapter "http://127.0.0.1:8080")
           {| generated_text := "Hello";
              details := [("finish_reason", "eos_token")] |}),
     with_request (Sample.world ∅)
       {| req_client := AsyncClient_of_url "http://127.0.0.1:8080";
          req_endpoint := Generate;
          req_prompt := Sample.prompt; req_kwargs := ∅ |}).
Proof.
  apply (generate_returns_reply (H := Sample.service)
           (Sample.adapter "http://127.0.0.1:8080") Sample.formatter
           Sample.dialog None None ∅ Sample.prompt);
    reflexivity.
Defined.

Lemma generate_surfaces_failure_witness :
  HFChatTGI._generate (Faulty.adapter "http://127.0.0.1:8080") Sample.dialog
    None None ∅ (Faulty.world ∅)
  = (Raise (OtherError "ClientError" "refused"),
     with_request (Faulty.world ∅)
       {| req_client := AsyncClient_of_url "http://127.0.0.1:8080";
          req_endpoint := Generate;
          req_prompt := Sample.prompt; req_kwargs := ∅ |}).
Proof.
  apply (generate_surfaces_failure (H := Faulty.service)
           (Faulty.adapter "http://127.0.0.1:8080") Faulty.formatter
           Sample.dialog None None ∅ Sample.prompt
           (OtherError "ClientError" "refused") (Faulty.world ∅));
    reflexivity.
Defined.

Lemma generate_without_formatter_witness :
  HFChatTGI._generate (Sample.bare_adapter "http://127.0.0.1:8080")
    Sample.dialog None None ∅ (Sample.world ∅)
  = (Raise (AttributeError
              "'NoneType' object has no attribute '_format_request_payload'"),
     Sample.world ∅).
Proof.
  apply (generate_without_formatter (H := Sample.service)
           (Sample.bare_adapter "http://127.0.0.1:8080") Sample.dialog
           None None ∅ (Sample.world ∅)).
  reflexivity.
Defined.

Lemma generate_refuses_prompt_keyword_witness :
  HFChatTGI._generate (Sample.adapter "http://127.0.0.1:8080") Sample.dialog
    None None {[ "prompt" := "again" ]} (Sample.world ∅)
  = (Raise (TypeError
       "generate() got multiple values for keyword argument 'prompt'"),
     Sample.world ∅).
Proof.
  apply (generate_refuses_prompt_keyword (H := Sample.service)
           (Sample.adapter "http://127.0.0.1:8080") Sample.formatter
           Sample.dialog None None {[ "prompt" := "again" ]} Sample.prompt
           "again" (Sample.world ∅));
    reflexivity.
Defined.

Lemma stream_refused_by_asyncio_run_witness :
  HFChatTGI.list_of_generator 3
    (HFChatTGI._stream (Faulty.adapter "http://127.0.0.1:8080") Sample.dialog
       None None ∅) (Faulty.world ∅)
  = (Some (Raise (ValueError
       "a coroutine was expected, got <async_generator object AsyncClient.generate_stream>")),
     HFChatTGI.Finished, Faulty.world ∅).
Proof.
  apply (stream_refused_by_asyncio_run (H := Faulty.service)
           (Faulty.adapter "http://127.0.0.1:8080") Faulty.formatter
           Sample.dialog None None ∅ Sample.prompt 2 (Faulty.world ∅));
    reflexivity.
Defined.

Lemma validate_client_parameters_witness :
  HFChatTGI.validate_client None
    {[ "tgi_client_parameters" :=
         HFChatTGI.FClientKwargs (ClientKwargs_of_url "http://explicit:8080") ]}
    (Sample.world {[ "TGI_URL" := "http://env:8080" ]})
  = (Ok (Some (AsyncClient_of_kwargs
                 (ClientKwargs_of_url "http://explicit:8080"))),
     {| environ := {[ "TGI_URL" := "http://env:8080" ]};
        logged := ["Creating new TGI client"];
        requests := [] |}).
Proof.
  rewrite (validate_client_parameters (H := Sample.service)
             (ClientKwargs_of_url "http://explicit:8080")
             {[ "tgi_client_parameters" :=
                  HFChatTGI.FClientKwargs
                    (ClientKwargs_of_url "http://explicit:8080") ]}
             (Sample.world {[ "TGI_URL" := "http://env:8080" ]}));
    reflexivity.
Defined.
